(** * The Slade360 remote-call pipeline of kenya_compliance_via_slade

    A shallow embedding of [process_request] (apis/apis.py) and of the
    whitelisted endpoints that call it, with the properties the
    specification states about the remote call dispatcher. *)

From stdpp Require Import base option list strings gmap fin_maps.
From Stdlib Require Import Ascii.

Open Scope string_scope.

(** ** Python values *)

(** The callables that travel through the pipeline.  [on_slade_error] and
    [on_error] are the two base error handlers apis.py imports; every other
    handler is known by the name of its function. *)
Inductive callback : Type :=
  | on_slade_error
  | on_error
  | Handler (name : string).

Global Instance callback_eq_dec : EqDecision callback.
Proof. solve_decision. Defined.

(** The values [process_request] can meet: what [json.loads] produces
    (floats apart, which no step of the pipeline looks at), plus callables.
    A dict has string keys, as JSON objects do. *)
#[warnings="-register-all"]
Inductive pyval : Type :=
  | PNone
  | PBool (b : bool)
  | PInt (n : Z)
  | PStr (s : string)
  | PList (l : list pyval)
  | PDict (d : gmap string pyval)
  | PFunc (c : callback).

(** Exceptions that escape [process_request]. *)
Inductive exn : Type :=
  | JSONDecodeError
  | UnboundLocalError
  | AttributeError
  | TypeError
  | KeyError
  | ValueError
  | Other (name : string).

Global Instance exn_eq_dec : EqDecision exn.
Proof. solve_decision. Defined.

(** Python truth value: [bool(v)]. *)
Definition truthy (v : pyval) : bool :=
  match v with
  | PNone => false
  | PBool b => b
  | PInt n => negb (n =? 0)%Z
  | PStr s => negb (String.eqb s "")
  | PList l => match l with [] => false | _ :: _ => true end
  | PDict d => negb (bool_decide (d = ∅))
  | PFunc _ => true
  end.

(** [a or b]: the first operand when it is truthy, the second otherwise. *)
Definition py_or (a b : pyval) : pyval := if truthy a then a else b.

(** [isinstance(v, str)], [isinstance(v, list)], [isinstance(v, dict)]. *)
Definition is_str (v : pyval) : bool := match v with PStr _ => true | _ => false end.
Definition is_list (v : pyval) : bool := match v with PList _ => true | _ => false end.
Definition is_dict (v : pyval) : bool := match v with PDict _ => true | _ => false end.

(** [v.get(key, None)]: only a dict has the method. *)
Definition py_get (v : pyval) (key : string) : exn + pyval :=
  match v with
  | PDict d => inr (default PNone (d !! key))
  | _ => inl AttributeError
  end.

(** [key in v] for a string [key]: key membership in a dict, element
    membership in a list, substring test in a string; the other values are
    not containers. *)
Definition is_the_str (key : string) (v : pyval) : bool :=
  match v with PStr s => String.eqb s key | _ => false end.

Fixpoint is_substring (key s : string) : bool :=
  String.prefix key s ||
  match s with
  | EmptyString => false
  | String _ rest => is_substring key rest
  end.

Definition py_contains (key : string) (v : pyval) : exn + bool :=
  match v with
  | PDict d => inr (bool_decide (is_Some (d !! key)))
  | PList l => inr (existsb (is_the_str key) l)
  | PStr s => inr (is_substring key s)
  | _ => inl TypeError
  end.

(** [v[key]] for a string [key]. *)
Definition py_getitem (v : pyval) (key : string) : exn + pyval :=
  match v with
  | PDict d => match d !! key with Some x => inr x | None => inl KeyError end
  | _ => inl TypeError
  end.

(** [v.pop(key)] on a dict that holds [key]: the dict without it. *)
Definition py_pop (v : pyval) (key : string) : exn + pyval :=
  match v with
  | PDict d => match d !! key with Some _ => inr (PDict (delete key d)) | None => inl KeyError end
  | PList _ => inl TypeError
  | _ => inl AttributeError
  end.

(** ** Raising computations *)

Global Instance exn_ret : MRet (sum exn) := λ A a, inr a.
Global Instance exn_bind : MBind (sum exn) :=
  λ A B f m, match m with inl e => inl e | inr a => f a end.

(** How a call ends: it returns, it raises, or the fuel that bounds the
    pagination loop runs out while the loop still has a page to fetch. *)
Inductive outcome (A : Type) : Type :=
  | Returned (a : A)
  | Raised (e : exn)
  | Unfinished.
Arguments Returned {A} a.
Arguments Raised {A} e.
Arguments Unfinished {A}.

(** ** The shared endpoints builder *)

(** The fields [process_request] assigns on the module-level
    [endpoints_builder] before every remote call. *)
Record EndpointsBuilder : Type := {
  headers : pyval;
  url : pyval;
  payload : pyval;
  request_description : string;
  method : string;
  success_callback : pyval;
  error_callback : pyval;
}.

(** How one HTTP exchange ends. *)
Inductive http_outcome : Type :=
  | Status (code : Z) (body : pyval)
  | TransportFailure (detail : pyval).

(** What a remote call does that can be observed from outside. *)
Inductive effect : Type :=
  | HttpExchange (b : EndpointsBuilder) (o : http_outcome)
  | SuccessCallback (cb body document_name : pyval)
  | ErrorCallback (cb body at_url : pyval) (doctype : string) (document_name : pyval).

(** The host framework and the helpers of [..utils], whose sources are not
    at hand; their results are typed the way [process_request] uses them. *)
Record Host : Type := {
  (** [json.loads]; [None] stands for its [JSONDecodeError]. *)
  json_loads : string → option pyval;
  (** [frappe.defaults.get_user_default(key)]. *)
  get_user_default : string → pyval;
  (** [frappe.get_value("Company", {}, "name")] and
      [frappe.get_value("Branch", "name")], by doctype. *)
  get_value : string → pyval;
  (** [build_headers(company_name, branch_id)]. *)
  build_headers : pyval → pyval → pyval;
  (** [get_server_url(company_name, branch_id)]: a string or [None]. *)
  get_server_url : pyval → pyval → option string;
  (** [get_route_path(route_key, app)], which line 113 unpacks as a pair;
      [None] stands for a result that does not unpack. *)
  get_route_path : string → string → option (string * pyval);
  (** [process_dynamic_url(route_path, request_data)]. *)
  process_dynamic_url : string → pyval → exn + string;
  (** The constant of [doctype_names_mapping]. *)
  SETTINGS_DOCTYPE_NAME : string;
}.

(** What a remote call hands back: its result, the events it caused and the
    state of everything outside the dispatcher afterwards. *)
Record remote_result (R : Type) : Type := {
  response : exn + pyval;
  emitted : list effect;
  after : R;
}.
Arguments response {R} _.
Arguments emitted {R} _.
Arguments after {R} _.

(** The state a dispatch runs in: the shared builder and the outside world. *)
Record World (R : Type) : Type := {
  builder : EndpointsBuilder;
  ext : R;
}.
Arguments builder {R} _.
Arguments ext {R} _.

(** One page of a dispatch: the remote call as [process_request] made it,
    what it gave back and what it did. *)
Record page : Type := {
  called_with : EndpointsBuilder;
  for_doctype : string;
  for_document : pyval;
  returned : exn + pyval;
  effects : list effect;
}.

(** A finished (or interrupted) run: how it ended, the pages it fetched, in
    order, and the state it left. *)
Record run (R A : Type) : Type := {
  out : outcome A;
  log : list page;
  world : World R;
}.
Arguments out {R A} _.
Arguments log {R A} _.
Arguments world {R A} _.

(** ** process_request *)

Section Dispatcher.

Context {R : Type}.
Variable host : Host.
(** [endpoints_builder.make_remote_call(doctype=..., document_name=...)],
    seen from its call site: it reads the builder and acts on the world. *)
Variable make_remote_call :
  EndpointsBuilder → string → pyval → R → remote_result R.

(** Lines 80-83: the payload.  A value that is neither [str], [dict] nor
    [list] leaves [data] unbound, and line 85 reads it. *)
Definition load_data (request_data : pyval) : exn + pyval :=
  match request_data with
  | PStr s =>
      match json_loads host s with
      | Some v => inr v
      | None => inl JSONDecodeError
      end
  | PDict _ | PList _ => inr request_data
  | _ => inl UnboundLocalError
  end.

(** Line 85: [data[0]] when [data] is a non-empty list, [data] otherwise. *)
Definition first_entry (data : pyval) : pyval :=
  match data with
  | PList (first :: _) => first
  | _ => data
  end.

(** Lines 118-119 and 121-122: drop [key] when it is present and set. *)
Definition pop_if_set (key : string) (data : pyval) : exn + pyval :=
  present ← py_contains key data;
  if present : bool then
    v ← py_getitem data key;
    if truthy v then py_pop data key else mret data
  else mret data.

(** Lines 117-122. *)
Definition strip_bookkeeping (request_method : string) (data : pyval) : exn + pyval :=
  if String.eqb request_method "GET" then
    data ← pop_if_set "document_name" data;
    pop_if_set "company_name" data
  else mret data.

(** What lines 80-122 compute before the configuration check. *)
Record resolved : Type := {
  r_data : pyval;
  r_document_name : pyval;
  r_headers : pyval;
  r_server_url : option string;
  r_route_path : string;
}.

Definition resolve (request_data : pyval) (route_key request_method : string)
  : exn + resolved :=
  data ← load_data request_data;
  let entry := first_entry data in
  c ← py_get entry "company_name";
  let company_name :=
    py_or c (py_or (get_user_default host "Company") (get_value host "Company")) in
  b ← py_get entry "branch_id";
  let branch_id :=
    py_or b (py_or (get_user_default host "Branch") (get_value host "Branch")) in
  document_name ← py_get entry "document_name";
  let headers := build_headers host company_name branch_id in
  let server_url := get_server_url host company_name branch_id in
  '(route_path, _) ←
    match get_route_path host route_key "VSCU Slade 360" with
    | Some found => inr found
    | None => inl TypeError
    end;
  route_path ← process_dynamic_url host route_path request_data;
  data ← strip_bookkeeping request_method data;
  mret {| r_data := data; r_document_name := document_name;
          r_headers := headers; r_server_url := server_url;
          r_route_path := route_path |}.

(** Line 124: [headers and server_url and route_path]. *)
Definition configured (p : resolved) : bool :=
  truthy (r_headers p)
  && match r_server_url p with Some s => negb (String.eqb s "") | None => false end
  && negb (String.eqb (r_route_path p) "").

(** Lines 141-144: the cursor of the next page. *)
Definition next_url (resp : pyval) : pyval :=
  match resp with
  | PDict d => match d !! "next" with Some u => u | None => PNone end
  | _ => PNone
  end.

(** Lines 128-134: what one turn of the loop writes on the builder. *)
Definition prepare (p : resolved) (route_key : string) (handler_function : pyval)
    (request_method : string) (target : pyval) : EndpointsBuilder :=
  {| headers := r_headers p;
     url := target;
     payload := r_data p;
     request_description := route_key;
     method := request_method;
     success_callback := handler_function;
     error_callback := PFunc on_slade_error |}.

(** Lines 127-144: the pagination loop, [fuel] bounding its turns. *)
Fixpoint paginate (fuel : nat) (p : resolved) (route_key : string)
    (handler_function : pyval) (request_method doctype : string)
    (target : pyval) (w : World R) : run R unit :=
  if truthy target then
    match fuel with
    | O => {| out := Unfinished; log := []; world := w |}
    | S fuel' =>
        let b := prepare p route_key handler_function request_method target in
        let r := make_remote_call b doctype (r_document_name p) (ext w) in
        let w' := {| builder := b; ext := after r |} in
        let fetched :=
          {| called_with := b; for_doctype := doctype;
             for_document := r_document_name p;
             returned := response r; effects := emitted r |} in
        match response r with
        | inl e => {| out := Raised e; log := [fetched]; world := w' |}
        | inr resp =>
            let rest :=
              paginate fuel' p route_key handler_function request_method
                       doctype (next_url resp) w' in
            {| out := out rest; log := fetched :: log rest; world := world rest |}
        end
    end
  else {| out := Returned tt; log := []; world := w |}.

Definition completed (route_key : string) : pyval :=
  PStr (route_key ++ " completed successfully.").

Definition missing_configuration (route_key : string) : pyval :=
  PStr ("Failed to process " ++ route_key ++ ". Missing required configuration.").

Definition process_request (fuel : nat) (request_data : pyval) (route_key : string)
    (handler_function : pyval) (request_method doctype : string) (w : World R)
  : run R pyval :=
  match resolve request_data route_key request_method with
  | inl e => {| out := Raised e; log := []; world := w |}
  | inr p =>
      if configured p then
        let target := PStr (default "" (r_server_url p) ++ r_route_path p) in
        let looped :=
          paginate fuel p route_key handler_function request_method doctype target w in
        {| out := match out looped with
                  | Returned _ => Returned (completed route_key)
                  | Raised e => Raised e
                  | Unfinished => Unfinished
                  end;
           log := log looped; world := world looped |}
      else {| out := Returned (missing_configuration route_key); log := []; world := w |}
  end.

End Dispatcher.

(** ** Calling process_request *)

(** A parameter of a [def]: its name, and whether it has a default. *)
Record parameter : Type := {
  p_name : string;
  p_has_default : bool;
}.

(** Lines 72-78. *)
Definition process_request_signature : list parameter :=
  [ {| p_name := "request_data"; p_has_default := false |};
    {| p_name := "route_key"; p_has_default := false |};
    {| p_name := "handler_function"; p_has_default := false |};
    {| p_name := "request_method"; p_has_default := true |};
    {| p_name := "doctype"; p_has_default := true |} ].

Definition names (ps : list parameter) : list string := p_name <$> ps.

Definition named (k : string) (ks : list string) : bool := existsb (String.eqb k) ks.

(** How Python binds the arguments of a call with [positional] positional
    arguments and the keyword arguments [keywords]: [None] when every
    parameter gets exactly one value, the [TypeError] otherwise. *)
Definition bind_arguments (sig : list parameter) (positional : nat)
    (keywords : list string) : option exn :=
  if (List.length sig <? positional)%nat then Some TypeError
  else if existsb (λ k, negb (named k (names sig))) keywords then Some TypeError
  else if existsb (λ k, named k (names (take positional sig))) keywords then Some TypeError
  else if existsb (λ q, negb (p_has_default q) && negb (named (p_name q) keywords))
                  (drop positional sig)
  then Some TypeError
  else None.

Section Endpoints.

Context {R : Type}.
Variable host : Host.
Variable make_remote_call :
  EndpointsBuilder → string → pyval → R → remote_result R.

(** A whitelisted endpoint that calls [process_request] and drops what it
    returns. *)
Definition dropping (r : run R pyval) : run R pyval :=
  {| out := match out r with
            | Returned _ => Returned PNone
            | other => other
            end;
     log := log r; world := world r |}.

(** tasks.py, lines 37-43: three positional arguments, the defaults for the
    rest; the message is handed back. *)
Definition perform_notice_search (fuel : nat) (request_data : pyval)
    (w : World R) : run R pyval :=
  match bind_arguments process_request_signature 3 [] with
  | Some e => {| out := Raised e; log := []; world := w |}
  | None =>
      process_request host make_remote_call fuel request_data "NoticeSearchReq"
                      (PFunc (Handler "notices_search_on_success"))
                      "GET" (SETTINGS_DOCTYPE_NAME host) w
  end.

(** Lines 526-534: three positional arguments, [request_method] and
    [doctype] by keyword. *)
Definition send_imported_item_request (fuel : nat) (request_data : pyval)
    (w : World R) : run R pyval :=
  match bind_arguments process_request_signature 3 ["request_method"; "doctype"] with
  | Some e => {| out := Raised e; log := []; world := w |}
  | None =>
      dropping (process_request host make_remote_call fuel request_data
                  "ImportItemSearchReq"
                  (PFunc (Handler "imported_item_submission_on_success"))
                  "POST" "Item" w)
  end.

(** Lines 537-545: three positional arguments, [method] and [doctype] by
    keyword; were the call bound, [request_method] would keep its default. *)
Definition update_imported_item_request (fuel : nat) (request_data : pyval)
    (w : World R) : run R pyval :=
  match bind_arguments process_request_signature 3 ["method"; "doctype"] with
  | Some e => {| out := Raised e; log := []; world := w |}
  | None =>
      dropping (process_request host make_remote_call fuel request_data
                  "ImportItemUpdateReq"
                  (PFunc (Handler "imported_item_submission_on_success"))
                  "GET" "Item" w)
  end.

End Endpoints.

(** ** The remote call *)

Section RemoteCall.

Context {S : Type}.
(** One HTTP exchange with the remote API, as the builder describes it. *)
Variable transport : EndpointsBuilder → S → http_outcome * S.
(** Running a handler on its arguments: it acts on the world and may raise. *)
Variable run_handler : pyval → list pyval → S → option exn * S.

Definition is_2xx (code : Z) : bool := ((200 <=? code) && (code <? 300))%Z.

(** The body an outcome carries: the response body, or the error detail. *)
Definition body_of (o : http_outcome) : pyval :=
  match o with
  | Status _ body => body
  | TransportFailure detail => detail
  end.

Definition succeeded (o : http_outcome) : bool :=
  match o with
  | Status code _ => is_2xx code
  | TransportFailure _ => false
  end.

(** Modelled from the spec: [EndpointsBuilder.make_remote_call] of
    apis/api_builder.py, which is not among the sources.  It performs the
    HTTP call; a 2xx response hands the parsed body to the success handler
    and is returned, so that [process_request] can look for its cursor; any
    other response, and a transport failure, invokes the error handler with
    the raw body (or the error detail), the attempted URL, the doctype and
    the document identifier, and returns nothing, which stops the
    pagination.  What a handler raises propagates. *)
Definition spec_make_remote_call (b : EndpointsBuilder) (doctype : string)
    (document_name : pyval) (s : S) : remote_result S :=
  let '(o, s1) := transport b s in
  if succeeded o then
    let '(raised, s2) := run_handler (success_callback b) [body_of o; document_name] s1 in
    {| response := match raised with Some e => inl e | None => inr (body_of o) end;
       emitted := [HttpExchange b o;
                   SuccessCallback (success_callback b) (body_of o) document_name];
       after := s2 |}
  else
    let '(raised, s2) :=
      run_handler (error_callback b)
                  [body_of o; url b; PStr doctype; document_name] s1 in
    {| response := match raised with Some e => inl e | None => inr PNone end;
       emitted := [HttpExchange b o;
                   ErrorCallback (error_callback b) (body_of o) (url b)
                                 doctype document_name];
       after := s2 |}.

End RemoteCall.

(** How many times the success handler, and the error handler, were invoked. *)
Definition is_success (e : effect) : bool :=
  match e with SuccessCallback _ _ _ => true | _ => false end.

Definition is_error (e : effect) : bool :=
  match e with ErrorCallback _ _ _ _ _ => true | _ => false end.

Definition successes (es : list effect) : nat := List.length (List.filter is_success es).

Definition errors (es : list effect) : nat := List.length (List.filter is_error es).

(** The outcome of the HTTP exchange of a page, when it had one. *)
Definition exchange_of (pg : page) : option http_outcome :=
  match effects pg with
  | HttpExchange _ o :: _ => Some o
  | _ => None
  end.

(** ** Reading a payload for bookkeeping keys *)

Definition bookkeeping : list string := ["document_name"; "company_name"].

Definition holds_bookkeeping (v : pyval) : bool :=
  match v with
  | PDict d => existsb (λ k, bool_decide (is_Some (d !! k))) bookkeeping
  | _ => false
  end.

(** A mapping with a bookkeeping key, or a sequence with such a mapping. *)
Definition carries_bookkeeping (v : pyval) : bool :=
  holds_bookkeeping v
  || match v with PList l => existsb holds_bookkeeping l | _ => false end.

(** A response without a cursor: a mapping with no "next" key, a mapping
    whose "next" is empty or null, or no mapping at all. *)
Definition lacks_cursor (resp : pyval) : Prop :=
  (∃ d, resp = PDict d ∧ d !! "next" = None)
  ∨ (∃ d u, resp = PDict d ∧ d !! "next" = Some u ∧ truthy u = false)
  ∨ is_dict resp = false.

(** Every page of a dispatch was configured with this pair of handlers. *)
Definition dispatches_with (on_success on_failure : pyval) (pages : list page) : Prop :=
  ∀ pg, pg ∈ pages →
    success_callback (called_with pg) = on_success
    ∧ error_callback (called_with pg) = on_failure.

(** ** A site to run the pipeline on *)

Module Scenario.

(** A decoder for the documents the scenarios send. *)
Definition loads (s : string) : option pyval :=
  if String.eqb s "{}" then Some (PDict ∅)
  else if String.eqb s "[]" then Some (PList [])
  else if String.eqb s "[{}]" then Some (PList [PDict ∅])
  else None.

(** Acme's branch 00 is set up; no other company is. *)
Definition site : Host :=
  {| json_loads := loads;
     get_user_default := λ key, if String.eqb key "Branch" then PStr "00" else PNone;
     get_value := λ doctype, if String.eqb doctype "Company" then PStr "Idle Ltd" else PNone;
     build_headers := λ company _,
       match company with
       | PStr "Acme" => PDict {[ "Authorization" := PStr "Bearer 0a1b" ]}
       | _ => PNone
       end;
     get_server_url := λ company _,
       match company with
       | PStr "Acme" => Some "https://api.example"
       | _ => None
       end;
     get_route_path := λ key _,
       if String.eqb key "ItemSearchReq" then Some ("/items/", PNone)
       else if String.eqb key "ImportItemSearchReq" then Some ("/imported-items/", PNone)
       else if String.eqb key "NoticeSearchReq" then Some ("/notices/", PNone)
       else None;
     process_dynamic_url := λ path _, inr path;
     SETTINGS_DOCTYPE_NAME := "Navari KRA eTims Settings" |}.

(** The remote API answers from a script, one outcome per request; past
    its end the connection is refused. *)
Definition scripted (_ : EndpointsBuilder) (script : list http_outcome)
  : http_outcome * list http_outcome :=
  match script with
  | o :: rest => (o, rest)
  | [] => (TransportFailure (PStr "connection refused"), [])
  end.

(** Handlers that do their work without raising. *)
Definition quiet (_ : pyval) (_ : list pyval) (s : list http_outcome)
  : option exn * list http_outcome := (None, s).

Definition remote := spec_make_remote_call scripted quiet.

Definition fresh : EndpointsBuilder :=
  {| headers := PNone; url := PNone; payload := PNone;
     request_description := ""; method := "";
     success_callback := PNone; error_callback := PNone |}.

Definition start (script : list http_outcome) : World (list http_outcome) :=
  {| builder := fresh; ext := script |}.

Definition item_search_on_success : pyval := PFunc (Handler "item_search_on_success").

Definition acme_item : pyval :=
  PDict {[ "company_name" := PStr "Acme"; "document_name" := PStr "ITEM-001" ]}.

Definition invalid_pin : pyval := PDict {[ "detail" := PStr "invalid pin" ]}.

(** What [process_request] resolves for [acme_item] on a GET of
    "ItemSearchReq". *)
Definition acme_resolved : resolved :=
  {| r_data := PDict ∅;
     r_document_name := PStr "ITEM-001";
     r_headers := PDict {[ "Authorization" := PStr "Bearer 0a1b" ]};
     r_server_url := Some "https://api.example";
     r_route_path := "/items/" |}.

(** A GET of "ItemSearchReq" for the Item doctype against a script. *)
Definition search (request_data : pyval) (script : list http_outcome)
  : run (list http_outcome) pyval :=
  process_request site remote 3 request_data "ItemSearchReq"
                  item_search_on_success "GET" "Item" (start script).

Definition no_page : page :=
  {| called_with := fresh; for_doctype := ""; for_document := PNone;
     returned := inr PNone; effects := [] |}.

(** The [n]-th page of a run. *)
Definition page_at (n : nat) (r : run (list http_outcome) pyval) : page :=
  nth n (log r) no_page.

End Scenario.

(** ** The background tasks *)

(** [sep.join(items)]: every item has to be a string. *)
Fixpoint join_strings (sep : string) (items : list string) : string :=
  match items with
  | [] => ""
  | [s] => s
  | s :: rest => s ++ sep ++ join_strings sep rest
  end.

Fixpoint strings_of (items : list pyval) : exn + list string :=
  match items with
  | [] => inr []
  | PStr s :: rest => ss ← strings_of rest; mret (s :: ss)
  | _ :: _ => inl TypeError
  end.

Definition py_join (sep : string) (items : list pyval) : exn + pyval :=
  ss ← strings_of items; mret (PStr (join_strings sep ss)).

Section Tasks.

Context {R : Type}.
Variable host : Host.
Variable make_remote_call :
  EndpointsBuilder → string → pyval → R → remote_result R.

(** The object a caller passed as [request_data], once a GET or any other
    call has gone past line 122: a dict or a list is the very object
    [data] names, so the caller sees what lines 119 and 122 popped; a string
    is parsed into an object of its own and stays as it was. *)
Definition argument_after (request_data : pyval) (route_key request_method : string)
  : pyval :=
  match request_data with
  | PStr _ => request_data
  | _ =>
      match resolve host request_data route_key request_method with
      | inr p => r_data p
      | inl _ => request_data
      end
  end.

(** A payload a GET leaves as it is. *)
Definition settled (request_data : pyval) : Prop :=
  ∀ route_key, argument_after request_data route_key "GET" = request_data.

(** [[process_request(request_data, task[0], task[1], ...) for task in tasks]]
    on one and the same [request_data], each call on the default method;
    [keywords] are the keywords of the call, [doctype] the doctype it ends up
    with. *)
Fixpoint collect (fuel : nat) (keywords : list string) (doctype : string)
    (tasks : list (string * pyval)) (request_data : pyval) (w : World R)
  : run R (list pyval) :=
  match tasks with
  | [] => {| out := Returned []; log := []; world := w |}
  | (route_key, handler) :: rest =>
      match bind_arguments process_request_signature 3 keywords with
      | Some e => {| out := Raised e; log := []; world := w |}
      | None =>
          let r := process_request host make_remote_call fuel request_data
                     route_key handler "GET" doctype w in
          match out r with
          | Returned message =>
              let later :=
                collect fuel keywords doctype rest
                        (argument_after request_data route_key "GET") (world r) in
              {| out := match out later with
                        | Returned messages => Returned (message :: messages)
                        | Raised e => Raised e
                        | Unfinished => Unfinished
                        end;
                 log := (log r ++ log later)%list; world := world later |}
          | Raised e => {| out := Raised e; log := log r; world := world r |}
          | Unfinished => {| out := Unfinished; log := log r; world := world r |}
          end
      end
  end.

(** [" ".join(messages)] over the messages of the tasks. *)
Definition joined (r : run R (list pyval)) : run R pyval :=
  {| out := match out r with
            | Returned messages =>
                match py_join " " messages with
                | inr s => Returned s
                | inl e => Raised e
                end
            | Raised e => Raised e
            | Unfinished => Unfinished
            end;
     log := log r; world := world r |}.

(** tasks.py, lines 49-56. *)
Definition code_list_tasks : list (string * pyval) :=
  [ ("CurrencyCountrySearchReq", PFunc (Handler "update_countries"));
    ("CurrencySearchReq", PFunc (Handler "update_currencies"));
    ("PackagingUnitSearchReq", PFunc (Handler "update_packaging_units"));
    ("QuantityUnitsSearchReq", PFunc (Handler "update_unit_of_quantity"));
    ("TaxSearchReq", PFunc (Handler "update_taxation_type"));
    ("PaymentMtdSearchReq", PFunc (Handler "update_payment_methods")) ].

(** tasks.py, lines 46-60. *)
Definition refresh_code_lists (fuel : nat) (request_data : pyval) (w : World R)
  : run R pyval :=
  joined (collect fuel [] (SETTINGS_DOCTYPE_NAME host) code_list_tasks request_data w).

(** tasks.py, lines 66-71. *)
Definition organisation_tasks : list (string * pyval) :=
  [ ("OrgSearchReq", PFunc (Handler "update_organisations"));
    ("BhfSearchReq", PFunc (Handler "update_branches"));
    ("DeptSearchReq", PFunc (Handler "update_departments"));
    ("WorkstationSearchReq", PFunc (Handler "update_workstations")) ].

(** tasks.py, lines 63-75. *)
Definition search_organisations_request (fuel : nat) (request_data : pyval)
    (w : World R) : run R pyval :=
  joined (collect fuel [] (SETTINGS_DOCTYPE_NAME host) organisation_tasks request_data w).

(** tasks.py, lines 109-123: two calls in a row, the pair of their messages
    handed back. *)
Definition fetch_etims_warehouse_list (fuel : nat) (request_data : pyval)
    (w : World R) : run R (pyval * pyval) :=
  let r := collect fuel ["doctype"] "Warehouse"
             [ ("WarehousesSearchReq", PFunc (Handler "warehouse_search_on_success"));
               ("LocationsSearchReq", PFunc (Handler "location_search_on_success")) ]
             request_data w in
  {| out := match out r with
            | Returned [warehouses; locations] => Returned (warehouses, locations)
            | Returned _ => Raised (Other "unreachable")
            | Raised e => Raised e
            | Unfinished => Unfinished
            end;
     log := log r; world := world r |}.

End Tasks.

(** ** Endpoints that build their payload from a document *)

(** A document of the desk, as the endpoints read it: the value of
    [item.get(fieldname)], or of the attribute of that name. *)
Definition Document : Type := string → pyval.

(** What the endpoints ask of the desk (frappe and [..utils]); none of it
    is among the sources. *)
Record Desk : Type := {
  (** [frappe.get_doc(doctype, name)]. *)
  get_doc : string → pyval → exn + Document;
  (** [get_link_value(doctype, field_name, value, return_field)]. *)
  get_link_value : string → string → pyval → string → exn + pyval;
  (** [json.dumps]. *)
  json_dumps : pyval → exn + string;
  (** [frappe.get_all(SETTINGS_DOCTYPE_NAME, ["name", "bhfid", "company"])]. *)
  all_credentials : list Document;
  (** [frappe.get_value("Currency", currency_name, "custom_slade_id")]. *)
  currency_slade_id : pyval → pyval;
}.

(** [v == n] for an integer literal [n]: a bool compares as 0 or 1. *)
Definition py_eq_int (v : pyval) (n : Z) : bool :=
  match v with
  | PInt m => (m =? n)%Z
  | PBool b => (Z.b2z b =? n)%Z
  | _ => false
  end.

Section Builders.

Context {R : Type}.
Variable host : Host.
Variable desk : Desk.
Variable make_remote_call :
  EndpointsBuilder → string → pyval → R → remote_result R.

(** The call every builder ends with: [request_data] by position, the rest
    by keyword. *)
Definition dispatch_built (fuel : nat) (built : exn + (gmap string pyval * string * pyval * string))
    (doctype : string) (w : World R) : run R pyval :=
  match built with
  | inl e => {| out := Raised e; log := []; world := w |}
  | inr (request_data, route_key, on_success, method) =>
      match bind_arguments process_request_signature 1
              ["route_key"; "handler_function"; "request_method"; "doctype"] with
      | Some e => {| out := Raised e; log := []; world := w |}
      | None =>
          dropping (process_request host make_remote_call fuel (PDict request_data)
                      route_key on_success method doctype w)
      end
  end.

(** Lines 1076-1108: the payload, the route and the method of
    [save_warehouse_details]. *)
Definition warehouse_request (name : pyval)
  : exn + (gmap string pyval * string * pyval * string) :=
  item ← get_doc desk "Warehouse" name;
  let slade_id := item "custom_slade_id" in
  let is_group := item "is_group" in
  let on_success := PFunc (Handler "warehouse_update_on_success") in
  organisation ← get_link_value desk "Company" "name" (item "company") "custom_slade_id";
  let request_data : gmap string pyval :=
    {[ "name" := item "warehouse_name";
       "document_name" := item "name";
       "organisation" := organisation;
       "active" := PBool (negb (py_eq_int (item "disabled") 1)) ]} in
  '(request_data, route_key) ←
    (if truthy is_group then mret (request_data, "WarehousesSearchReq")
     else
       branch ← get_link_value desk "Branch" "name" (item "branch") "slade_id";
       warehouse ← get_link_value desk "Warehouse" "name" (item "parent_warehouse")
                                  "custom_slade_id";
       mret (<[ "warehouse" := warehouse ]> (<[ "branch" := branch ]> request_data),
             "LocationsSearchReq"));
  if truthy slade_id
  then mret (<[ "id" := slade_id ]> request_data, route_key, on_success, "PATCH")
  else mret (request_data, route_key, on_success, "POST").

(** Lines 1074-1116. *)
Definition save_warehouse_details (fuel : nat) (name : pyval) (w : World R)
  : run R pyval :=
  dispatch_built fuel (warehouse_request name) "Warehouse" w.

(** Lines 1260-1307: the payload, the route, the handler and the method of
    [save_operation_type]. *)
Definition operation_type_request (doctype : string) (name on_success : pyval)
  : exn + (gmap string pyval * string * pyval * string) :=
  item ← get_doc desk doctype name;
  let slade_id := item "slade_id" in
  organisation ← get_link_value desk "Company" "name" (item "company") "custom_slade_id";
  branch ← get_link_value desk "Branch" "name" (item "branch") "slade_id";
  destination ← get_link_value desk "Warehouse" "name" (item "destination_location")
                               "custom_slade_id";
  source ← get_link_value desk "Warehouse" "name" (item "source_location")
                          "custom_slade_id";
  transit ← get_link_value desk "Warehouse" "name" (item "transit_location")
                           "custom_slade_id";
  let request_data : gmap string pyval :=
    {[ "operation_name" := item "operation_name";
       "document_name" := item "name";
       "operation_type" := item "operation_type";
       "organisation" := organisation;
       "branch" := branch;
       "destination_location" := destination;
       "source_location" := source;
       "transit_location" := transit;
       "active" := PBool (negb (py_eq_int (item "active") 0)) ]} in
  if truthy slade_id
  then mret (<[ "id" := slade_id ]> request_data, "OperationTypesReq",
             PFunc (Handler "operation_types_search_on_success"), "PATCH")
  else mret (request_data, "OperationTypesReq", on_success, "POST").

(** Lines 1256-1315; [OPERATION_TYPE_DOCTYPE_NAME] is a constant of
    [doctype_names_mapping], and [on_success] defaults to
    [operation_type_create_on_success]. *)
Definition save_operation_type (OPERATION_TYPE_DOCTYPE_NAME : string) (fuel : nat)
    (name on_success : pyval) (w : World R) : run R pyval :=
  dispatch_built fuel (operation_type_request OPERATION_TYPE_DOCTYPE_NAME name on_success)
                 OPERATION_TYPE_DOCTYPE_NAME w.

(** Lines 429-436. *)
Definition perform_import_item_search (fuel : nat) (request_data : pyval)
    (w : World R) : run R pyval :=
  match bind_arguments process_request_signature 3 ["doctype"] with
  | Some e => {| out := Raised e; log := []; world := w |}
  | None =>
      dropping (process_request host make_remote_call fuel request_data
                  "ImportItemSearchReq"
                  (PFunc (Handler "imported_items_search_on_success"))
                  "GET" "Item" w)
  end.

(** Lines 447-449: the document written for a credential. *)
Definition branch_document (credential : Document) : gmap string pyval :=
  {[ "company_name" := credential "company"; "branch_code" := credential "bhfid" ]}.

(** Lines 446-451: one search per credential on record. *)
Fixpoint search_each_branch (fuel : nat) (credentials : list Document) (w : World R)
  : run R pyval :=
  match credentials with
  | [] => {| out := Returned PNone; log := []; world := w |}
  | credential :: rest =>
      match json_dumps desk (PDict (branch_document credential)) with
      | inl e => {| out := Raised e; log := []; world := w |}
      | inr request_data =>
          let r := perform_import_item_search fuel (PStr request_data) w in
          match out r with
          | Returned _ =>
              let later := search_each_branch fuel rest (world r) in
              {| out := out later; log := (log r ++ log later)%list;
                 world := world later |}
          | _ => r
          end
      end
  end.

(** Lines 439-451. *)
Definition perform_import_item_search_all_branches (fuel : nat) (w : World R)
  : run R pyval :=
  search_each_branch fuel (all_credentials desk) w.

End Builders.

(** ** The success handlers *)

(** What a handler does to the desk, as far as it can be told from
    outside. *)
Inductive desk_event : Type :=
  | Stored (item : pyval)
  | NotStored (item : pyval) (e : exn)
  | CommitTried (failure : option exn)
  | ErrorLogged (subject : pyval) (e : exn).

Section Handlers.

Context {S : Type}.
(** Lines 509-545 of remote_response_status_handlers.py: one item of the
    response is turned into fields and saved or inserted; whatever goes
    wrong there is an exception. *)
Variable upsert : gmap string pyval → S → option exn * S.
(** [frappe.db.commit()]. *)
Variable commit : S → option exn * S.
(** [frappe.log_error(title=..., message=...)] about an item and what was
    caught. *)
Variable log_error : pyval → exn → S → S.

Definition batch_size : nat := 20.

(** Lines 507-555: the loop over the items, [counter] being the number of
    items stored so far.  An item that is no mapping fails at
    [item_data.get("id")], is caught, and fails again in the handler, which
    calls [item_data.get('id')] for its message: that one escapes. *)
Fixpoint sync_items (items : list pyval) (counter : nat) (s : S)
  : (exn + nat) * list desk_event * S :=
  match items with
  | [] => (inr counter, [], s)
  | item_data :: rest =>
      match item_data with
      | PDict d =>
          let '(failure, s1) := upsert d s in
          match failure with
          | Some e =>
              let s2 := log_error (default PNone (d !! "id")) e s1 in
              let '(result, events, s3) := sync_items rest counter s2 in
              (result,
               NotStored item_data e :: ErrorLogged (default PNone (d !! "id")) e :: events,
               s3)
          | None =>
              let counter := Datatypes.S counter in
              if (counter mod batch_size =? 0)%nat then
                let '(failure, s2) := commit s1 in
                match failure with
                | Some e =>
                    let s3 := log_error (default PNone (d !! "id")) e s2 in
                    let '(result, events, s4) := sync_items rest counter s3 in
                    (result,
                     Stored item_data :: CommitTried (Some e)
                       :: ErrorLogged (default PNone (d !! "id")) e :: events,
                     s4)
                | None =>
                    let '(result, events, s3) := sync_items rest counter s2 in
                    (result, Stored item_data :: CommitTried None :: events, s3)
                end
              else
                let '(result, events, s2) := sync_items rest counter s1 in
                (result, Stored item_data :: events, s2)
          end
      | _ => (inl AttributeError, [], s)
      end
  end.

(** Lines 557-558: what is left of the last batch. *)
Definition commit_rest (counter : nat) (events : list desk_event) (s : S)
  : (exn + unit) * list desk_event * S :=
  if (counter mod batch_size =? 0)%nat then (inr tt, events, s)
  else
    let '(failure, s1) := commit s in
    (match failure with Some e => inl e | None => inr tt end,
     (events ++ [CommitTried failure])%list, s1).

(** Lines 502-558.  Iterating over a non-empty mapping or string yields
    strings, which are no mappings; over an empty one, nothing. *)
Definition item_search_on_success (response : pyval) (s : S)
  : (exn + unit) * list desk_event * S :=
  match response with
  | PDict r =>
      match default (PList []) (r !! "results") with
      | PList items =>
          let '(result, events, s1) := sync_items items 0 s in
          match result with
          | inl e => (inl e, events, s1)
          | inr counter => commit_rest counter events s1
          end
      | PDict keys => if bool_decide (keys = ∅) then (inr tt, [], s)
                      else (inl AttributeError, [], s)
      | PStr text => if String.eqb text "" then (inr tt, [], s)
                     else (inl AttributeError, [], s)
      | _ => (inl TypeError, [], s)
      end
  | _ => (inl AttributeError, [], s)
  end.

End Handlers.

(** How many items were stored, how many were not, how many commits were
    tried. *)
Definition stored (events : list desk_event) : nat :=
  List.length (List.filter (λ e, match e with Stored _ => true | _ => false end) events).

Definition not_stored (events : list desk_event) : nat :=
  List.length (List.filter (λ e, match e with NotStored _ _ => true | _ => false end) events).

Definition commits (events : list desk_event) : nat :=
  List.length (List.filter (λ e, match e with CommitTried _ => true | _ => false end) events).

(** How many items were stored since the last commit was tried, [before]
    being that number when the events begin. *)
Fixpoint pending_after (before : nat) (events : list desk_event) : nat :=
  match events with
  | [] => before
  | Stored _ :: rest => pending_after (Datatypes.S before) rest
  | CommitTried _ :: rest => pending_after 0 rest
  | _ :: rest => pending_after before rest
  end.

(** ** The phone number of a branch customer *)

(** Strings are read here character by character, a character standing for
    the code point of its number (the Latin-1 range). *)

(** [c.isspace()] in that range. *)
Definition is_space (c : ascii) : bool :=
  let n := nat_of_ascii c in
  ((9 <=? n) && (n <=? 13) || (28 <=? n) && (n <=? 32)
   || (n =? 133) || (n =? 160))%nat.

Definition is_blank (c : ascii) : bool := Ascii.eqb c " "%char.

(** [s.replace(" ", "")], [s.lstrip()], [s.strip()] and [s[-n:]] on the
    characters of [s]. *)
Definition without_blanks (l : list ascii) : list ascii :=
  List.filter (λ c, negb (is_blank c)) l.

Fixpoint lstrip (l : list ascii) : list ascii :=
  match l with
  | c :: rest => if is_space c then lstrip rest else l
  | [] => []
  end.

Definition strip (l : list ascii) : list ascii :=
  reverse (lstrip (reverse (lstrip l))).

Definition last_chars (n : nat) (l : list ascii) : list ascii :=
  drop (List.length l - n) l.

(** Lines 325-328: the number as it is sent, or nothing. *)
Definition normalised_phone (number : string) : option string :=
  let phone_number := strip (without_blanks (String.list_ascii_of_string number)) in
  if (9 <=? List.length phone_number)%nat
  then Some ("+254" ++ String.string_of_list_ascii (last_chars 9 phone_number))
  else None.

Section BranchCustomer.

Variable desk : Desk.

(** Lines 325-339 of [send_branch_customer_details], on the decoded
    request: the mapping that is written out again, and the doctype of the
    call. *)
Definition branch_customer_request (data : pyval) : exn + (gmap string pyval * pyval) :=
  match data with
  | PDict d =>
      match default (PStr "") (d !! "phone_number") with
      | PStr number =>
          let phone :=
            match normalised_phone number with
            | Some sent => PStr sent
            | None => PNone
            end in
          let d := <[ "phone_number" := phone ]> d in
          let currency_name := default PNone (d !! "currency") in
          let '(doctype, d) :=
            match d !! "doctype" with
            | Some doctype => (doctype, delete "doctype" d)
            | None => (PStr "Customer", d)
            end in
          let d :=
            if truthy currency_name
            then <[ "currency" := currency_slade_id desk currency_name ]> d
            else d in
          inr (d, doctype)
      | _ => inl AttributeError
      end
  | _ => inl AttributeError
  end.

End BranchCustomer.

(** ** A desk to run the endpoints on *)

Module Fixtures.

(** The one credential on record: Acme's branch 01. *)
Definition acme_credential : Document :=
  λ field,
    if String.eqb field "company" then PStr "Acme"
    else if String.eqb field "bhfid" then PStr "01"
    else PNone.

(** A decoder that also knows the document written for that credential. *)
Definition loads (s : string) : option pyval :=
  if String.eqb s "acme-01" then Some (PDict (branch_document acme_credential))
  else Scenario.loads s.

(** A site where every company is set up and every route is known; the
    first company on record is Idle Ltd, and nobody has a default one. *)
Definition open_site : Host :=
  {| json_loads := loads;
     get_user_default := λ key, if String.eqb key "Branch" then PStr "00" else PNone;
     get_value := λ doctype, if String.eqb doctype "Company" then PStr "Idle Ltd" else PNone;
     build_headers := λ company branch,
       match company with
       | PStr c => PDict {[ "Authorization" := PStr ("Bearer " ++ c); "branch" := branch ]}
       | _ => PNone
       end;
     get_server_url := λ company _,
       match company with
       | PStr _ => Some "https://api.example"
       | _ => None
       end;
     get_route_path := λ key _, Some ("/" ++ key ++ "/", PNone);
     process_dynamic_url := λ path _, inr path;
     SETTINGS_DOCTYPE_NAME := "Navari KRA eTims Settings" |}.

(** A location that is already known to the remote side. *)
Definition main_store : Document :=
  λ field,
    if String.eqb field "name" then PStr "Main Store - A"
    else if String.eqb field "warehouse_name" then PStr "Main Store"
    else if String.eqb field "custom_slade_id" then PStr "wh-17"
    else if String.eqb field "is_group" then PInt 0
    else if String.eqb field "disabled" then PInt 0
    else if String.eqb field "company" then PStr "Acme"
    else if String.eqb field "branch" then PStr "01"
    else if String.eqb field "parent_warehouse" then PStr "All Warehouses - A"
    else PNone.

(** An operation type that is not. *)
Definition receipts : Document :=
  λ field,
    if String.eqb field "name" then PStr "Receipts"
    else if String.eqb field "operation_name" then PStr "Receipts"
    else if String.eqb field "operation_type" then PStr "incoming"
    else if String.eqb field "active" then PInt 1
    else PNone.

Definition desk : Desk :=
  {| get_doc := λ doctype name,
       match name with
       | PStr "Main Store - A" => inr main_store
       | PStr "Receipts" => inr receipts
       | _ => inl (Other "DoesNotExistError")
       end;
     get_link_value := λ _ _ value _, inr value;
     json_dumps := λ _, inr "acme-01";
     all_credentials := [acme_credential];
     currency_slade_id := λ _, PStr "cur-404" |}.

Definition remote := Scenario.remote.
Definition start := Scenario.start.

Definition two_hundreds : list http_outcome :=
  [Status 200 (PDict ∅); Status 200 (PDict ∅); Status 200 (PDict ∅);
   Status 200 (PDict ∅); Status 200 (PDict ∅); Status 200 (PDict ∅)].

(** The page a run fetched at a place of its log. *)
Definition page_of {A : Type} (n : nat) (r : run (list http_outcome) A) : page :=
  nth n (log r) Scenario.no_page.

(** A desk that stores the items that have an "id", counts its commits and
    takes no note of the errors. *)
Definition store (d : gmap string pyval) (n : nat) : option exn * nat :=
  match d !! "id" with
  | Some _ => (None, n)
  | None => (Some (Other "ValidationError"), n)
  end.

Definition count_commit (n : nat) : option exn * nat := (None, S n).

Definition no_note (_ : pyval) (_ : exn) (n : nat) : nat := n.

Definition with_id (n : Z) : pyval := PDict {[ "id" := PInt n ]}.

Definition three_items : gmap string pyval :=
  {[ "results" := PList [with_id 1; PDict ∅; with_id 3] ]}.

Definition stray_items : gmap string pyval :=
  {[ "results" := PList [with_id 1; PStr "next"; with_id 3] ]}.

Definition synced :=
  item_search_on_success store count_commit no_note (PDict three_items) 0.

(** The runs the properties are tried on. *)

Definition turn : pyval :=
  PDict {[ "next" := PStr "https://api.example/items/?page=2" ]}.

(** Two pages of an item search at Acme. *)
Definition two_pages : run (list http_outcome) pyval :=
  Scenario.search Scenario.acme_item [Status 200 turn; Status 200 (PDict ∅)].

(** The same item sent by POST. *)
Definition posted : run (list http_outcome) pyval :=
  process_request Scenario.site Scenario.remote 3 Scenario.acme_item
                  "ItemSearchReq" Scenario.item_search_on_success "POST" "Item"
                  (Scenario.start [Status 200 (PDict ∅)]).

(** Acme's code lists, asked for with a dict that names Acme. *)
Definition acme_settings : gmap string pyval :=
  {[ "company_name" := PStr "Acme"; "branch_id" := PStr "01" ]}.

Definition refreshed : run (list http_outcome) pyval :=
  refresh_code_lists open_site remote 2 (PDict acme_settings)
                     (start two_hundreds).

Definition refreshed_from_text : run (list http_outcome) pyval :=
  refresh_code_lists open_site remote 2 (PStr "acme-01")
                     (start two_hundreds).

Definition main_store_saved : run (list http_outcome) pyval :=
  save_warehouse_details open_site desk remote 2 (PStr "Main Store - A")
                         (start two_hundreds).

Definition receipts_saved : run (list http_outcome) pyval :=
  save_operation_type open_site desk remote "Navari eTims Stock Operation Type"
                      2 (PStr "Receipts") (PFunc (Handler "notify_the_caller"))
                      (start two_hundreds).

Definition all_branches_searched : run (list http_outcome) pyval :=
  perform_import_item_search_all_branches open_site desk remote 2
                                          (start two_hundreds).

Definition walk_in : gmap string pyval :=
  {[ "doctype" := PStr "Customer Branch"; "phone_number" := PStr "0712 345 678";
     "currency" := PStr "KES" ]}.

Definition walk_in_sent : gmap string pyval :=
  {[ "phone_number" := PStr "+254712345678"; "currency" := PStr "cur-404" ]}.

End Fixtures.

(** * Properties *)

(** ** The values *)

Example truthy_empty_dict : truthy (PDict ∅) = false.
Proof. reflexivity. Qed.

Example truthy_empty_string : truthy (PStr "") = false.
Proof. reflexivity. Qed.

Example pop_document_name :
  py_pop Scenario.acme_item "document_name" = inr (PDict {[ "company_name" := PStr "Acme" ]}).
Proof. vm_compute. reflexivity. Qed.

Lemma append_nonempty (s t : string) : s ≠ "" → (s +:+ t) ≠ "".
Proof. destruct s; [congruence | discriminate]. Qed.

Lemma eqb_empty_false (s : string) : s ≠ "" → String.eqb s "" = false.
Proof. intros Hs. apply String.eqb_neq. exact Hs. Qed.

(** ** Binding the arguments of a call *)

Example bind_request_method :
  bind_arguments process_request_signature 3 ["request_method"; "doctype"] = None.
Proof. reflexivity. Qed.

Example bind_positional_only : bind_arguments process_request_signature 3 [] = None.
Proof. reflexivity. Qed.

Example bind_missing_handler : bind_arguments process_request_signature 2 [] = Some TypeError.
Proof. reflexivity. Qed.

Example bind_unknown_keyword :
  bind_arguments process_request_signature 3 ["method"; "doctype"] = Some TypeError.
Proof. reflexivity. Qed.

Section DispatcherFacts.

Context {R : Type}.
Variable host : Host.
Variable make_remote_call :
  EndpointsBuilder → string → pyval → R → remote_result R.

(** *** The configuration check *)

Lemma configured_spec (p : resolved) :
  configured p = true ↔
    truthy (r_headers p) = true
    ∧ (∃ s, r_server_url p = Some s ∧ s ≠ "")
    ∧ r_route_path p ≠ "".
Proof.
  unfold configured. rewrite !andb_true_iff, !negb_true_iff, String.eqb_neq.
  split.
  - intros [[Hh Hs] Hr]. split; [exact Hh|]. split; [|exact Hr].
    destruct (r_server_url p) as [s|]; [|discriminate].
    exists s. split; [reflexivity|].
    apply String.eqb_neq, negb_true_iff. exact Hs.
  - intros (Hh & (s & Hs & Hne) & Hr). rewrite Hs.
    repeat split; try assumption.
    apply negb_true_iff, String.eqb_neq. exact Hne.
Qed.

Lemma configured_target (p : resolved) :
  configured p = true →
  truthy (PStr (default "" (r_server_url p) ++ r_route_path p)) = true.
Proof.
  intros (_ & (s & Hs & Hne) & _)%configured_spec. rewrite Hs. simpl.
  apply negb_true_iff, String.eqb_neq, append_nonempty. exact Hne.
Qed.


(** C8.  A string that [json.loads] rejects makes [process_request] raise
    the decoder's error: nothing is fetched, nothing is returned. *)
Theorem malformed_json_propagates
    (fuel : nat) (s route_key : string) (handler_function : pyval)
    (request_method doctype : string) (w : World R) :
  json_loads host s = None →
  process_request host make_remote_call fuel (PStr s) route_key handler_function request_method doctype w
  = {| out := Raised JSONDecodeError; log := []; world := w |}.
Proof.
  intros Hbad. unfold process_request, resolve, load_data.
  rewrite Hbad. reflexivity.
Qed.

(** C10.  The empty list reaches [data.get] and raises [AttributeError];
    a payload that is neither [str], [dict] nor [list] leaves [data]
    unbound and raises [UnboundLocalError].  Neither returns a message. *)
Theorem unusable_payload_raises
    (fuel : nat) (route_key : string) (handler_function : pyval)
    (request_method doctype : string) (w : World R) :
  process_request host make_remote_call fuel (PList []) route_key handler_function request_method doctype w
  = {| out := Raised AttributeError; log := []; world := w |}
  ∧ ∀ request_data,
      is_str request_data = false →
      is_dict request_data = false →
      is_list request_data = false →
      process_request host make_remote_call fuel request_data route_key handler_function
                      request_method doctype w
      = {| out := Raised UnboundLocalError; log := []; world := w |}.
Proof.
  split; [reflexivity|].
  intros request_data Hs Hd Hl.
  destruct request_data; try discriminate; reflexivity.
Qed.

(** C9.  [update_imported_item_request] passes [method="PUT"], a keyword
    [process_request] has no parameter for: binding the call raises
    [TypeError] for every input, before anything is fetched. *)
Theorem update_imported_item_request_raises
    (fuel : nat) (request_data : pyval) (w : World R) :
  update_imported_item_request host make_remote_call fuel request_data w
  = {| out := Raised TypeError; log := []; world := w |}.
Proof. reflexivity. Qed.

(** *** The pagination loop *)

Lemma lacks_cursor_next (resp : pyval) :
  lacks_cursor resp → truthy (next_url resp) = false.
Proof.
  intros [(d & -> & Hd) | [(d & u & -> & Hd & Hu) | Hnd]]; simpl.
  - rewrite Hd. reflexivity.
  - rewrite Hd. exact Hu.
  - destruct resp; try reflexivity. discriminate.
Qed.

Lemma paginate_done fuel p route_key h m doctype target (w : World R) :
  truthy target = false →
  paginate make_remote_call fuel p route_key h m doctype target w
  = {| out := Returned tt; log := []; world := w |}.
Proof. intros Ht. destruct fuel; simpl; rewrite Ht; reflexivity. Qed.

Lemma paginate_turn fuel p route_key h m doctype target (w : World R) :
  truthy target = true →
  paginate make_remote_call (S fuel) p route_key h m doctype target w
  = let b := prepare p route_key h m target in
    let r := make_remote_call b doctype (r_document_name p) (ext w) in
    let w' := {| builder := b; ext := after r |} in
    let fetched :=
      {| called_with := b; for_doctype := doctype;
         for_document := r_document_name p;
         returned := response r; effects := emitted r |} in
    match response r with
    | inl e => {| out := Raised e; log := [fetched]; world := w' |}
    | inr resp =>
        let rest := paginate make_remote_call fuel p route_key h m doctype
                      (next_url resp) w' in
        {| out := out rest; log := fetched :: log rest; world := world rest |}
    end.
Proof. intros Ht. simpl. rewrite Ht. reflexivity. Qed.

Lemma paginate_no_page fuel p route_key h m doctype target (w : World R) :
  log (paginate make_remote_call fuel p route_key h m doctype target w) = [] →
  truthy target = false
  ∨ (fuel = 0
     ∧ out (paginate make_remote_call fuel p route_key h m doctype target w)
       = Unfinished).
Proof.
  destruct (truthy target) eqn:Ht; [|left; reflexivity].
  destruct fuel; simpl; rewrite Ht; simpl.
  - right. split; reflexivity.
  - destruct (response _); discriminate.
Qed.

(** Every page is the remote call of one turn of the loop, on the builder
    that turn prepared. *)
Lemma paginate_pages fuel p route_key h m doctype :
  ∀ target (w : World R) pg,
    pg ∈ log (paginate make_remote_call fuel p route_key h m doctype target w) →
    ∃ t s,
      truthy t = true
      ∧ let b := prepare p route_key h m t in
        let r := make_remote_call b doctype (r_document_name p) s in
        pg = {| called_with := b; for_doctype := doctype;
                for_document := r_document_name p;
                returned := response r; effects := emitted r |}.
Proof.
  induction fuel as [|fuel IH]; intros target w pg; simpl;
    destruct (truthy target) eqn:Ht; simpl;
    try (intros []%elem_of_nil).
  destruct (response _) eqn:Hr; simpl.
  - intros ->%list_elem_of_singleton. exists target, (ext w).
    split; [exact Ht|]. simpl. rewrite Hr. reflexivity.
  - intros [-> | Hin]%elem_of_cons.
    + exists target, (ext w). split; [exact Ht|]. simpl. rewrite Hr. reflexivity.
    + eapply IH. exact Hin.
Qed.

(** A page that is followed by another one returned a cursor. *)
Lemma paginate_follows fuel p route_key h m doctype :
  ∀ target (w : World R) (pre : list page) pg post,
    log (paginate make_remote_call fuel p route_key h m doctype target w)
    = (pre ++ pg :: post)%list →
    post ≠ [] →
    ∃ resp, returned pg = inr resp ∧ truthy (next_url resp) = true.
Proof.
  induction fuel as [|fuel IH]; intros target w pre pg post; simpl;
    destruct (truthy target) eqn:Ht; simpl;
    try (intros Hnil; destruct pre; discriminate).
  destruct (response _) eqn:Hr; simpl.
  - intros Hlog Hpost. destruct pre as [|x [|y pre]]; simplify_eq/=.
  - intros Hlog Hpost. destruct pre as [|x pre]; simplify_eq/=.
    + exists p0. split; [reflexivity|].
      destruct (truthy (next_url p0)) eqn:Hn; [reflexivity|].
      rewrite paginate_done in Hpost by exact Hn. contradiction.
    + eapply IH; eassumption.
Qed.

(** How the loop can end. *)
Lemma paginate_ends fuel p route_key h m doctype :
  ∀ target (w : World R),
    let r := paginate make_remote_call fuel p route_key h m doctype target w in
    (out r = Returned tt
     ∧ ∀ pg, last (log r) = Some pg →
         ∃ resp, returned pg = inr resp ∧ truthy (next_url resp) = false)
    ∨ (∃ e pg, out r = Raised e ∧ last (log r) = Some pg ∧ returned pg = inl e)
    ∨ (out r = Unfinished ∧ List.length (log r) = fuel).
Proof.
  induction fuel as [|fuel IH]; intros target w; simpl;
    destruct (truthy target) eqn:Ht; simpl.
  - right; right. split; reflexivity.
  - left. split; [reflexivity|]. intros pg; discriminate.
  - destruct (response _) eqn:Hr; simpl.
    + right; left. eexists _, _. repeat split.
    + set (w' := {| builder := _; ext := _ |}).
      specialize (IH (next_url p0) w').
      destruct (log (paginate make_remote_call fuel p route_key h m doctype
                              (next_url p0) w')) as [|pg' rest] eqn:Hlog.
      * apply paginate_no_page in Hlog as Hcase.
        destruct Hcase as [Hn | [-> Hun]].
        -- rewrite paginate_done in * by exact Hn. simpl in *.
           left. split; [reflexivity|]. intros pg [= <-]. simpl.
           exists p0. split; [reflexivity | exact Hn].
        -- right; right. split; [exact Hun|]. reflexivity.
      * rewrite last_cons_cons. simpl in IH. rewrite Hlog in IH.
        destruct IH as [[Ho Hl] | [(e & pg & Ho & Hl & Hr') | [Ho Hl]]].
        -- left. split; assumption.
        -- right; left. exists e, pg. repeat split; assumption.
        -- right; right. split; [exact Ho|]. simpl in *. congruence.
  - left. split; [reflexivity|]. intros pg; discriminate.
Qed.

(** The pages of a dispatch are those of its loop. *)
Lemma process_request_pages fuel request_data route_key h m doctype (w : World R) pg :
  pg ∈ log (process_request host make_remote_call fuel request_data route_key h m doctype w) →
  ∃ p, resolve host request_data route_key m = inr p
       ∧ configured p = true
       ∧ pg ∈ log (paginate make_remote_call fuel p route_key h m doctype
                     (PStr (default "" (r_server_url p) ++ r_route_path p)) w).
Proof.
  unfold process_request.
  destruct (resolve host request_data route_key m) as [e|p]; simpl;
    [intros []%elem_of_nil|].
  destruct (configured p) eqn:Hc; simpl; [|intros []%elem_of_nil].
  intros Hin. exists p. repeat split; assumption.
Qed.

Lemma process_request_configured fuel request_data route_key h m doctype (w : World R) p :
  resolve host request_data route_key m = inr p →
  configured p = true →
  let looped := paginate make_remote_call fuel p route_key h m doctype
                  (PStr (default "" (r_server_url p) ++ r_route_path p)) w in
  process_request host make_remote_call fuel request_data route_key h m doctype w
  = {| out := match out looped with
              | Returned _ => Returned (completed route_key)
              | Raised e => Raised e
              | Unfinished => Unfinished
              end;
       log := log looped; world := world looped |}.
Proof. intros Hres Hc. unfold process_request. rewrite Hres, Hc. reflexivity. Qed.

(** C3.  A first response without a cursor (a mapping with no "next", a
    mapping whose "next" is empty or null, or no mapping at all) ends the
    dispatch after exactly one page; and whichever page brings such a
    response is the last one: no further remote call is made. *)
Theorem no_cursor_ends_pagination
    (fuel : nat) (request_data : pyval) (route_key : string)
    (handler_function : pyval) (request_method doctype : string)
    (w : World R) (p : resolved) :
  resolve host request_data route_key request_method = inr p →
  configured p = true →
  let r := process_request host make_remote_call (S fuel) request_data route_key
             handler_function request_method doctype w in
  let first := prepare p route_key handler_function request_method
                 (PStr (default "" (r_server_url p) ++ r_route_path p)) in
  (∀ resp,
     response (make_remote_call first doctype (r_document_name p) (ext w)) = inr resp →
     lacks_cursor resp →
     out r = Returned (completed route_key) ∧ List.length (log r) = 1)
  ∧ (∀ (pre : list page) pg post resp,
       log r = (pre ++ pg :: post)%list →
       returned pg = inr resp →
       lacks_cursor resp →
       post = []).
Proof.
  intros Hres Hc r first. subst r.
  rewrite (process_request_configured _ _ _ _ _ _ _ _ Hres Hc).
  cbv zeta. cbn [out log world].
  split.
  - intros resp Hresp Hno%lacks_cursor_next. subst first.
    rewrite paginate_turn by (apply configured_target; exact Hc).
    cbv zeta. rewrite Hresp, paginate_done by exact Hno.
    split; reflexivity.
  - intros pre pg post resp Hlog Hret Hno%lacks_cursor_next.
    destruct post as [|x post]; [reflexivity|].
    destruct (paginate_follows _ _ _ _ _ _ _ _ _ _ _ Hlog) as (resp' & Hret' & Hn);
      [discriminate|].
    congruence.
Qed.

(** C5.  Past the configuration check, the one value [process_request]
    can return is the completion message built from the route key, once
    the loop has met a page without a cursor.  Otherwise no value is
    returned: a remote call raised, on the last page fetched, or the loop
    is still turning after [fuel] pages. *)
Theorem completion_message
    (fuel : nat) (request_data : pyval) (route_key : string)
    (handler_function : pyval) (request_method doctype : string)
    (w : World R) (p : resolved) :
  resolve host request_data route_key request_method = inr p →
  configured p = true →
  let r := process_request host make_remote_call fuel request_data route_key
             handler_function request_method doctype w in
  (out r = Returned (PStr (route_key ++ " completed successfully."))
   ∧ ∀ pg, last (log r) = Some pg →
       ∃ resp, returned pg = inr resp ∧ truthy (next_url resp) = false)
  ∨ (∃ e pg, out r = Raised e ∧ last (log r) = Some pg ∧ returned pg = inl e)
  ∨ (out r = Unfinished ∧ List.length (log r) = fuel).
Proof.
  intros Hres Hc r. subst r.
  rewrite (process_request_configured _ _ _ _ _ _ _ _ Hres Hc). simpl.
  destruct (paginate_ends fuel p route_key handler_function request_method doctype
              (PStr (default "" (r_server_url p) ++ r_route_path p)) w)
    as [[Ho Hl] | [(e & pg & Ho & Hl & Hr) | [Ho Hl]]]; rewrite Ho.
  - left. split; [reflexivity | exact Hl].
  - right; left. exists e, pg. repeat split; assumption.
  - right; right. split; [reflexivity | exact Hl].
Qed.

(** C7, as the code has it.  Every page of a dispatch is configured with
    the success handler the caller passed and with [on_slade_error], the
    error handler [process_request] installs itself. *)
Theorem handlers_of_a_dispatch
    (fuel : nat) (request_data : pyval) (route_key : string)
    (handler_function : pyval) (request_method doctype : string) (w : World R) :
  dispatches_with handler_function (PFunc on_slade_error)
    (log (process_request host make_remote_call fuel request_data route_key
            handler_function request_method doctype w)).
Proof.
  intros pg (p & _ & _ & Hin)%process_request_pages.
  apply paginate_pages in Hin as (t & s & _ & ->). split; reflexivity.
Qed.

(** *** Stripping the bookkeeping keys *)

Lemma pop_if_set_dict (key : string) (data : pyval) (d : gmap string pyval) :
  pop_if_set key data = inr (PDict d) →
  ∃ d0, data = PDict d0
        ∧ ((d = d0 ∧ ∀ v, d0 !! key = Some v → truthy v = false)
           ∨ d = delete key d0).
Proof.
  unfold pop_if_set. cbv [mret exn_ret].
  destruct data as [| | |s|l|d0|]; simpl; try discriminate.
  - destruct (is_substring key s); simpl; discriminate.
  - destruct (existsb (is_the_str key) l); simpl; discriminate.
  - intros H. exists d0. split; [reflexivity|].
    destruct (d0 !! key) as [v|] eqn:Hk.
    + rewrite bool_decide_eq_true_2 in H by eauto. simpl in H.
      destruct (truthy v) eqn:Hv; simpl in H.
      * right. congruence.
      * left. split; [congruence|]. intros v' [= <-]. exact Hv.
    + rewrite bool_decide_eq_false_2 in H by (intros [? ?]; discriminate).
      simpl in H. left. split; [congruence|]. intros v'; discriminate.
Qed.

Lemma strip_bookkeeping_get (data : pyval) (d : gmap string pyval) :
  strip_bookkeeping "GET" data = inr (PDict d) →
  ∀ key v, key ∈ bookkeeping → d !! key = Some v → truthy v = false.
Proof.
  unfold strip_bookkeeping. simpl.
  destruct (pop_if_set "document_name" data) as [e|data1] eqn:H1; simpl;
    [discriminate|].
  intros (d1 & -> & H2)%pop_if_set_dict.
  apply pop_if_set_dict in H1 as (d0 & -> & H1).
  intros key v [-> | [-> | []%elem_of_nil]%elem_of_cons]%elem_of_cons Hk.
  - destruct H2 as [[-> H2] | ->].
    + destruct H1 as [[-> H1] | ->]; [eauto|].
      rewrite lookup_delete_eq in Hk. discriminate.
    + rewrite lookup_delete_ne in Hk by discriminate.
      destruct H1 as [[-> H1] | ->]; [eauto|].
      rewrite lookup_delete_eq in Hk. discriminate.
  - destruct H2 as [[-> H2] | ->]; [eauto|].
    rewrite lookup_delete_eq in Hk. discriminate.
Qed.



(** What a resolved call holds of its payload. *)
Lemma resolve_data (request_data : pyval) (route_key request_method : string)
    (p : resolved) :
  resolve host request_data route_key request_method = inr p →
  ∃ data,
    load_data host request_data = inr data
    ∧ py_get (first_entry data) "document_name" = inr (r_document_name p)
    ∧ strip_bookkeeping request_method data = inr (r_data p).
Proof.
  unfold resolve. intros Hres.
  destruct (load_data host request_data) as [e|data] eqn:Hload; simpl in Hres;
    [discriminate|].
  exists data. split; [reflexivity|].
  repeat match type of Hres with
         | mbind _ ?m = inr _ => destruct m eqn:?; simpl in Hres; [discriminate|]
         | (let '(_, _) := ?x in _) = _ => destruct x
         | (match ?m with inl _ => _ | inr _ => _ end) = inr _ =>
             destruct m eqn:?; simpl in Hres; [discriminate|]
         end.
  injection Hres as <-. simpl. split; reflexivity.
Qed.


End DispatcherFacts.

(** ** Dispatching through the remote call *)

Section RemoteCallFacts.

Context {S : Type}.
Variable host : Host.
Variable transport : EndpointsBuilder → S → http_outcome * S.
Variable run_handler : pyval → list pyval → S → option exn * S.

(** What one remote call does, by the outcome of its exchange. *)
Lemma spec_make_remote_call_cases (b : EndpointsBuilder) (doctype : string)
    (document_name : pyval) (s : S) :
  let r := spec_make_remote_call transport run_handler b doctype document_name s in
  ∃ o,
    (succeeded o = true
     ∧ emitted r = [HttpExchange b o;
                    SuccessCallback (success_callback b) (body_of o) document_name]
     ∧ (response r = inr (body_of o) ∨ ∃ e, response r = inl e))
    ∨ (succeeded o = false
       ∧ emitted r = [HttpExchange b o;
                      ErrorCallback (error_callback b) (body_of o) (url b)
                                    doctype document_name]
       ∧ (response r = inr PNone ∨ ∃ e, response r = inl e)).
Proof.
  unfold spec_make_remote_call.
  destruct (transport b s) as [o s1]. exists o.
  destruct (succeeded o) eqn:Ho.
  - left. destruct (run_handler _ _ s1) as [[e|] s2]; simpl; eauto.
  - right. destruct (run_handler _ _ s1) as [[e|] s2]; simpl; eauto.
Qed.

(** C4.  Whatever the exchange of a page brings back, a response of any
    status or a transport failure, exactly one handler is invoked for the
    page: the success handler or the error handler, never both and never
    neither. *)
Theorem one_handler_per_page
    (fuel : nat) (request_data : pyval) (route_key : string)
    (handler_function : pyval) (request_method doctype : string)
    (w : World S) (pg : page) :
  pg ∈ log (process_request host (spec_make_remote_call transport run_handler)
              fuel request_data route_key handler_function request_method
              doctype w) →
  (successes (effects pg) = 1 ∧ errors (effects pg) = 0)
  ∨ (successes (effects pg) = 0 ∧ errors (effects pg) = 1).
Proof.
  intros (p & _ & _ & Hin)%process_request_pages.
  apply paginate_pages in Hin as (t & s & _ & ->). cbv zeta. cbn [effects].
  destruct (spec_make_remote_call_cases
              (prepare p route_key handler_function request_method t)
              doctype (r_document_name p) s)
    as (o & [(_ & -> & _) | (_ & -> & _)]).
  - left. split; reflexivity.
  - right. split; reflexivity.
Qed.

(** C6.  A page whose exchange ends in a non-2xx response or in a
    transport failure invokes the error handler once, and no success
    handler, with the raw body (or the error detail), the URL that was
    attempted, the doctype of the call and the document identifier of its
    payload; it is the last page of the dispatch. *)
Theorem failed_page_reports_and_stops
    (fuel : nat) (request_data : pyval) (route_key : string)
    (handler_function : pyval) (request_method doctype : string)
    (w : World S) (p : resolved)
    (pre : list page) (pg : page) (post : list page) (o : http_outcome) :
  resolve host request_data route_key request_method = inr p →
  log (process_request host (spec_make_remote_call transport run_handler)
         fuel request_data route_key handler_function request_method doctype w)
  = (pre ++ pg :: post)%list →
  exchange_of pg = Some o →
  succeeded o = false →
  effects pg
  = [HttpExchange (called_with pg) o;
     ErrorCallback (PFunc on_slade_error) (body_of o) (url (called_with pg))
                   doctype (r_document_name p)]
  ∧ errors (effects pg) = 1
  ∧ successes (effects pg) = 0
  ∧ post = [].
Proof.
  intros Hres Hlog Hex Hfail.
  assert (pg ∈ log (process_request host
                      (spec_make_remote_call transport run_handler)
                      fuel request_data route_key handler_function
                      request_method doctype w)) as Hin.
  { rewrite Hlog. apply elem_of_app. right. apply elem_of_cons. left. reflexivity. }
  apply process_request_pages in Hin as (p' & Hres' & Hc & Hin).
  assert (p' = p) as -> by congruence.
  rewrite (process_request_configured _ _ _ _ _ _ _ _ _ _ Hres Hc) in Hlog.
  cbv zeta in Hlog. cbn [log] in Hlog.
  apply paginate_pages in Hin as (t & s & _ & Hpg).
  cbv zeta in Hpg.
  destruct (spec_make_remote_call_cases
              (prepare p route_key handler_function request_method t)
              doctype (r_document_name p) s)
    as (o' & [(Ho' & He & _) | (Ho' & He & Hr)]);
    cbv zeta in He.
  - exfalso. subst pg. unfold exchange_of in Hex. cbn [effects] in Hex.
    rewrite He in Hex. congruence.
  - assert (o' = o) as ->.
    { subst pg. unfold exchange_of in Hex. cbn [effects] in Hex.
      rewrite He in Hex. congruence. }
    assert (effects pg
            = [HttpExchange (called_with pg) o;
               ErrorCallback (PFunc on_slade_error) (body_of o)
                             (url (called_with pg)) doctype (r_document_name p)])
      as Heff.
    { subst pg. cbn [effects called_with]. exact He. }
    rewrite Heff. repeat split.
    destruct post as [|x post]; [reflexivity|]. exfalso.
    destruct (paginate_follows _ _ _ _ _ _ _ _ _ _ _ _ Hlog)
      as (resp & Hret & Hn); [discriminate|].
    subst pg. cbn [returned] in Hret. cbv zeta in Hr.
    destruct Hr as [Hr | [e Hr]]; rewrite Hr in Hret; [|discriminate].
    injection Hret as <-. discriminate.
Qed.

End RemoteCallFacts.

(** ** The pipeline at work *)

Module Cases.
Import Scenario.

Example acme_item_resolves :
  resolve site acme_item "ItemSearchReq" "GET" = inr acme_resolved.
Proof. vm_compute. reflexivity. Qed.

(** The scenario of the specification: both bookkeeping keys are
    stripped, and the URL is the server's followed by the route path. *)
Example search_request :
  (λ b, (url b, payload b, method b)) ∘ called_with
    <$> log (search acme_item [Status 200 (PDict ∅)])
  = [(PStr "https://api.example/items/", PDict ∅, "GET")].
Proof. vm_compute. reflexivity. Qed.

(** Two pages: a cursor, then none. *)
Example two_pages :
  let r := search acme_item
             [Status 200 (PDict {[ "next" := PStr "https://api.example/items/?page=2" ]});
              Status 200 (PDict {[ "next" := PNone ]})] in
  out r = Returned (PStr "ItemSearchReq completed successfully.")
  ∧ url ∘ called_with <$> log r
    = [PStr "https://api.example/items/"; PStr "https://api.example/items/?page=2"]
  ∧ successes ∘ effects <$> log r = [1; 1].
Proof. vm_compute. repeat split; reflexivity. Qed.

(** A remote API that always hands out a cursor keeps the loop turning. *)
Example endless_cursor :
  let more := Status 200 (PDict {[ "next" := PStr "https://api.example/items/?page=n" ]}) in
  out (search acme_item [more; more; more; more]) = Unfinished.
Proof. vm_compute. reflexivity. Qed.

(** An endpoint that relies on the defaults: a GET, for the settings
    doctype, on behalf of the company the site falls back on. *)
Example notice_search_uses_defaults :
  let r := perform_notice_search site remote 3 (PStr "{}") (start []) in
  out r = Returned (missing_configuration "NoticeSearchReq") ∧ log r = [].
Proof. vm_compute. split; reflexivity. Qed.

Example notice_search_for_acme :
  let r := perform_notice_search site remote 3
             (PDict {[ "company_name" := PStr "Acme" ]})
             (start [Status 200 (PList [])]) in
  out r = Returned (completed "NoticeSearchReq")
  ∧ (λ pg, (method (called_with pg), for_doctype pg)) <$> log r
    = [("GET", "Navari KRA eTims Settings")].
Proof. vm_compute. split; reflexivity. Qed.

(** The sibling endpoint binds its call and goes through. *)
Example send_imported_item_request_goes_through :
  out (send_imported_item_request site remote 3 acme_item (start [Status 201 (PDict ∅)]))
  = Returned PNone.
Proof. vm_compute. reflexivity. Qed.



(** The mappings of a sequence keep their bookkeeping keys as well. *)
Example get_keeps_keys_in_a_sequence :
  payload ∘ called_with <$> log (search (PList [acme_item]) [Status 200 (PDict ∅)])
  = [PList [acme_item]]
  ∧ carries_bookkeeping (PList [acme_item]) = true.
Proof. vm_compute. split; reflexivity. Qed.


Lemma no_cursor_ends_pagination_witness :
  let r := process_request site remote 3 acme_item "ItemSearchReq"
             item_search_on_success "GET" "Item"
             (start [Status 200 (PList [PStr "a"; PStr "b"]); Status 200 (PDict ∅)]) in
  out r = Returned (completed "ItemSearchReq") ∧ List.length (log r) = 1.
Proof.
  eapply (proj1 (no_cursor_ends_pagination site remote 2 acme_item "ItemSearchReq"
                   item_search_on_success "GET" "Item"
                   (start [Status 200 (PList [PStr "a"; PStr "b"]); Status 200 (PDict ∅)])
                   acme_resolved _ _)
            (PList [PStr "a"; PStr "b"])).
  - vm_compute. reflexivity.
  - right; right. reflexivity.
  Unshelve.
  + vm_compute. reflexivity.
  + vm_compute. reflexivity.
Defined.

Lemma one_handler_per_page_witness :
  let pg := page_at 1 (search acme_item
              [Status 200 (PDict {[ "next" := PStr "https://api.example/items/?page=2" ]});
               Status 503 (PStr "unavailable")]) in
  (successes (effects pg) = 1 ∧ errors (effects pg) = 0)
  ∨ (successes (effects pg) = 0 ∧ errors (effects pg) = 1).
Proof.
  eapply (one_handler_per_page site scripted quiet 3 acme_item "ItemSearchReq"
            item_search_on_success "GET" "Item"
            (start [Status 200 (PDict {[ "next" := PStr "https://api.example/items/?page=2" ]});
                    Status 503 (PStr "unavailable")])).
  vm_compute. constructor. constructor.
Defined.

Lemma completion_message_witness :
  let r := search acme_item [Status 200 (PDict ∅)] in
  (out r = Returned (PStr "ItemSearchReq completed successfully.")
   ∧ ∀ pg, last (log r) = Some pg →
       ∃ resp, returned pg = inr resp ∧ truthy (next_url resp) = false)
  ∨ (∃ e pg, out r = Raised e ∧ last (log r) = Some pg ∧ returned pg = inl e)
  ∨ (out r = Unfinished ∧ List.length (log r) = 3).
Proof.
  eapply (completion_message site remote 3 acme_item "ItemSearchReq"
            item_search_on_success "GET" "Item" (start [Status 200 (PDict ∅)])
            acme_resolved).
  - vm_compute. reflexivity.
  - vm_compute. reflexivity.
Defined.

(** The scenario of the specification: a 400 with a body. *)
Lemma failed_page_reports_and_stops_witness :
  let pg := page_at 0 (search acme_item [Status 400 invalid_pin; Status 200 (PDict ∅)]) in
  effects pg
  = [HttpExchange (called_with pg) (Status 400 invalid_pin);
     ErrorCallback (PFunc on_slade_error) invalid_pin
                   (PStr "https://api.example/items/") "Item" (PStr "ITEM-001")]
  ∧ errors (effects pg) = 1
  ∧ successes (effects pg) = 0
  ∧ @nil page = [].
Proof.
  eapply (failed_page_reports_and_stops site scripted quiet 3 acme_item "ItemSearchReq"
            item_search_on_success "GET" "Item"
            (start [Status 400 invalid_pin; Status 200 (PDict ∅)])
            acme_resolved []
            (page_at 0 (search acme_item [Status 400 invalid_pin; Status 200 (PDict ∅)]))
            [] (Status 400 invalid_pin)).
  - vm_compute. reflexivity.
  - vm_compute. reflexivity.
  - vm_compute. reflexivity.
  - vm_compute. reflexivity.
Defined.

(** C7, against the claim: a caller who means [on_error], the other base
    handler, to take the failures of its call finds [on_slade_error]
    installed. *)
Lemma caller_cannot_choose_error_handler :
  ¬ dispatches_with item_search_on_success (PFunc on_error)
      (log (search acme_item [Status 400 invalid_pin])).
Proof.
  intros Hall.
  destruct (Hall (page_at 0 (search acme_item [Status 400 invalid_pin]))) as [_ He].
  - vm_compute. constructor.
  - vm_compute in He. discriminate.
Qed.

Lemma handlers_of_a_dispatch_witness :
  dispatches_with item_search_on_success (PFunc on_slade_error)
    (log (search acme_item [Status 400 invalid_pin])).
Proof.
  exact (handlers_of_a_dispatch site remote 3 acme_item "ItemSearchReq"
           item_search_on_success "GET" "Item" (start [Status 400 invalid_pin])).
Defined.

Lemma malformed_json_propagates_witness :
  process_request site remote 3 (PStr "{company_name: Acme") "ItemSearchReq"
                  item_search_on_success "GET" "Item" (start [])
  = {| out := Raised JSONDecodeError; log := []; world := start [] |}.
Proof.
  apply (malformed_json_propagates site remote 3 "{company_name: Acme" "ItemSearchReq"
           item_search_on_success "GET" "Item" (start [])).
  vm_compute. reflexivity.
Defined.

Lemma unusable_payload_raises_witness :
  process_request site remote 3 (PInt 7) "ItemSearchReq"
                  item_search_on_success "GET" "Item" (start [])
  = {| out := Raised UnboundLocalError; log := []; world := start [] |}.
Proof.
  apply (proj2 (unusable_payload_raises site remote 3 "ItemSearchReq"
                  item_search_on_success "GET" "Item" (start [])) (PInt 7));
    reflexivity.
Defined.

End Cases.

(** ** More on a dispatch *)

Section DispatchFacts.

Context {R : Type}.
Variable host : Host.
Variable make_remote_call :
  EndpointsBuilder → string → pyval → R → remote_result R.

(** The first page of the loop is fetched at the target it starts from. *)
Lemma paginate_first fuel p route_key h m doctype target (w : World R) pg rest :
  log (paginate make_remote_call fuel p route_key h m doctype target w) = pg :: rest →
  called_with pg = prepare p route_key h m target
  ∧ for_doctype pg = doctype
  ∧ for_document pg = r_document_name p.
Proof.
  destruct fuel; simpl; destruct (truthy target); simpl; try discriminate.
  destruct (response _); simpl; intros [= <- _]; repeat split.
Qed.

(** Two pages in a row: the second is fetched where the first one points. *)
Lemma paginate_consecutive fuel p route_key h m doctype :
  ∀ target (w : World R) (pre : list page) pg1 pg2 post,
    log (paginate make_remote_call fuel p route_key h m doctype target w)
    = (pre ++ pg1 :: pg2 :: post)%list →
    ∃ resp, returned pg1 = inr resp
            ∧ called_with pg2 = prepare p route_key h m (next_url resp).
Proof.
  induction fuel as [|fuel IH]; intros target w pre pg1 pg2 post; simpl;
    destruct (truthy target) eqn:Ht; simpl;
    try (intros Hnil; destruct pre; discriminate).
  destruct (response _) as [e|resp] eqn:Hr; simpl.
  - intros Hlog. destruct pre as [|x [|y pre]]; discriminate.
  - intros Hlog. destruct pre as [|x pre]; simpl in Hlog.
    + injection Hlog as <- Hrest. exists resp. split; [reflexivity|].
      apply paginate_first in Hrest. apply Hrest.
    + injection Hlog as _ Hrest. eapply IH. exact Hrest.
Qed.

(** The builder a finished loop leaves behind is the one of its last page;
    a loop that fetched nothing leaves the world as it found it. *)
Lemma paginate_leaves fuel p route_key h m doctype :
  ∀ target (w : World R),
    let r := paginate make_remote_call fuel p route_key h m doctype target w in
    match last (log r) with
    | Some pg => builder (world r) = called_with pg
    | None => world r = w
    end.
Proof.
  induction fuel as [|fuel IH]; intros target w; simpl;
    destruct (truthy target) eqn:Ht; simpl; try reflexivity.
  destruct (response _) as [e|resp] eqn:Hr; simpl; [reflexivity|].
  set (w' := {| builder := _; ext := _ |}).
  specialize (IH (next_url resp) w'). simpl in IH.
  destruct (log (paginate make_remote_call fuel p route_key h m doctype
                          (next_url resp) w')) as [|pg' rest] eqn:Hlog.
  - simpl in *. rewrite IH. reflexivity.
  - rewrite last_cons_cons.
    destruct (last (pg' :: rest)) eqn:Hl; [exact IH|].
    apply last_None in Hl. discriminate.
Qed.

(** The pages of a dispatch follow the cursor: each page after the first is
    fetched at the "next" of the response before it, with the same headers,
    payload, method and handlers, for the same document. *)
Theorem pages_follow_the_cursor
    (fuel : nat) (request_data : pyval) (route_key : string)
    (handler_function : pyval) (request_method doctype : string)
    (w : World R) (pre : list page) (pg1 pg2 : page) (post : list page) :
  log (process_request host make_remote_call fuel request_data route_key
         handler_function request_method doctype w)
  = (pre ++ pg1 :: pg2 :: post)%list →
  ∃ resp,
    returned pg1 = inr resp
    ∧ truthy (next_url resp) = true
    ∧ url (called_with pg2) = next_url resp
    ∧ headers (called_with pg2) = headers (called_with pg1)
    ∧ payload (called_with pg2) = payload (called_with pg1)
    ∧ method (called_with pg2) = method (called_with pg1)
    ∧ success_callback (called_with pg2) = success_callback (called_with pg1)
    ∧ error_callback (called_with pg2) = error_callback (called_with pg1)
    ∧ for_document pg2 = for_document pg1.
Proof.
  intros Hlog.
  assert (pg1 ∈ log (process_request host make_remote_call fuel request_data
                       route_key handler_function request_method doctype w)) as Hin.
  { rewrite Hlog. apply elem_of_app. right. apply elem_of_cons. left. reflexivity. }
  apply process_request_pages in Hin as (p & Hres & Hc & Hin).
  rewrite (process_request_configured _ _ _ _ _ _ _ _ _ _ Hres Hc) in Hlog.
  cbv zeta in Hlog. cbn [log] in Hlog.
  destruct (paginate_consecutive _ _ _ _ _ _ _ _ _ _ _ _ Hlog) as (resp & Hret & Hb2).
  assert (pg2 ∈ log (paginate make_remote_call fuel p route_key handler_function
                       request_method doctype
                       (PStr (default "" (r_server_url p) ++ r_route_path p)) w))
    as Hin2.
  { rewrite Hlog. apply elem_of_app. right.
    apply elem_of_cons. right. apply elem_of_cons. left. reflexivity. }
  apply paginate_pages in Hin as (t1 & s1 & _ & Hpg1).
  apply paginate_pages in Hin2 as (t2 & s2 & Ht2 & Hpg2).
  cbv zeta in Hpg1, Hpg2.
  exists resp. split; [exact Hret|].
  rewrite Hb2. rewrite Hpg2 in Hb2. cbn [called_with] in Hb2.
  assert (t2 = next_url resp) as <-.
  { apply (f_equal url) in Hb2. exact Hb2. }
  split; [exact Ht2|].
  rewrite Hpg1, Hpg2. cbn. repeat split.
Qed.

(** The shared builder after a dispatch: it holds what the last page of the
    dispatch wrote on it; a dispatch that fetched no page (it raised early,
    or the configuration was missing) leaves builder and world untouched. *)
Theorem builder_after_dispatch
    (fuel : nat) (request_data : pyval) (route_key : string)
    (handler_function : pyval) (request_method doctype : string) (w : World R) :
  let r := process_request host make_remote_call fuel request_data route_key
             handler_function request_method doctype w in
  match last (log r) with
  | Some pg =>
      builder (world r) = called_with pg
      ∧ success_callback (builder (world r)) = handler_function
      ∧ request_description (builder (world r)) = route_key
  | None => world r = w
  end.
Proof.
  unfold process_request.
  destruct (resolve host request_data route_key request_method) as [e|p] eqn:Hres;
    simpl; [reflexivity|].
  destruct (configured p) eqn:Hc; simpl; [|reflexivity].
  pose proof (paginate_leaves fuel p route_key handler_function request_method
                doctype (PStr (default "" (r_server_url p) ++ r_route_path p)) w)
    as Hl.
  cbv zeta in Hl.
  destruct (last (log (paginate make_remote_call fuel p route_key handler_function
                         request_method doctype
                         (PStr (default "" (r_server_url p) ++ r_route_path p)) w)))
    as [pg|] eqn:Hlast; [|exact Hl].
  split; [exact Hl|]. rewrite Hl.
  apply last_Some_elem_of in Hlast.
  apply paginate_pages in Hlast as (t & s & _ & ->). split; reflexivity.
Qed.

(** The payload of every page is what [strip_bookkeeping] made of the
    loaded data. *)
Lemma payload_of_a_page
    (fuel : nat) (request_data : pyval) (route_key : string)
    (handler_function : pyval) (request_method doctype : string)
    (w : World R) (data : pyval) (pg : page) :
  load_data host request_data = inr data →
  pg ∈ log (process_request host make_remote_call fuel request_data route_key
              handler_function request_method doctype w) →
  strip_bookkeeping request_method data = inr (payload (called_with pg)).
Proof.
  intros Hload (p & Hres & _ & Hin)%process_request_pages.
  apply paginate_pages in Hin as (t & s & _ & ->). simpl.
  apply resolve_data in Hres as (data' & Hload' & _ & Hstrip).
  rewrite Hload in Hload'. injection Hload' as <-.
  exact Hstrip.
Qed.

(** Only a GET strips: with any other method, "get" in lower case
    included, the payload goes out exactly as it was loaded, bookkeeping
    keys and all. *)
Theorem other_methods_send_payload_whole
    (fuel : nat) (request_data : pyval) (route_key : string)
    (handler_function : pyval) (request_method doctype : string)
    (w : World R) (data : pyval) (pg : page) :
  request_method ≠ "GET" →
  load_data host request_data = inr data →
  pg ∈ log (process_request host make_remote_call fuel request_data route_key
              handler_function request_method doctype w) →
  payload (called_with pg) = data.
Proof.
  intros Hm Hload Hin.
  pose proof (payload_of_a_page _ _ _ _ _ _ _ _ _ Hload Hin) as Hstrip.
  unfold strip_bookkeeping in Hstrip.
  apply String.eqb_neq in Hm. rewrite Hm in Hstrip.
  cbv [mret exn_ret] in Hstrip. congruence.
Qed.

(** The headers, the document and the first address of a dispatch, read off
    the first mapping of its payload. *)
Lemma dispatch_credentials
    (fuel : nat) (request_data : pyval) (route_key : string)
    (handler_function : pyval) (request_method doctype : string)
    (w : World R) (data : pyval) (d : gmap string pyval) (pg : page) :
  load_data host request_data = inr data →
  data = PDict d ∨ (∃ rest, data = PList (PDict d :: rest)) →
  pg ∈ log (process_request host make_remote_call fuel request_data route_key
              handler_function request_method doctype w) →
  let company :=
    py_or (default PNone (d !! "company_name"))
          (py_or (get_user_default host "Company") (get_value host "Company")) in
  let branch :=
    py_or (default PNone (d !! "branch_id"))
          (py_or (get_user_default host "Branch") (get_value host "Branch")) in
  headers (called_with pg) = build_headers host company branch
  ∧ for_document pg = default PNone (d !! "document_name")
  ∧ ∃ s, get_server_url host company branch = Some s
         ∧ ∀ first rest, log (process_request host make_remote_call fuel request_data
                                route_key handler_function request_method doctype w)
                         = first :: rest →
             ∃ path, url (called_with first) = PStr (s ++ path).
Proof.
  intros Hload Hshape (p & Hres & Hc & Hin)%process_request_pages company branch.
  pose proof Hres as Hres0.
  unfold resolve in Hres. rewrite Hload in Hres. simpl in Hres.
  assert (first_entry data = PDict d) as Hentry.
  { destruct Hshape as [-> | [rest ->]]; reflexivity. }
  rewrite Hentry in Hres. simpl in Hres.
  fold company in Hres. fold branch in Hres.
  destruct (get_route_path host route_key "VSCU Slade 360") as [[path0 stamp]|];
    simpl in Hres; [|discriminate].
  destruct (process_dynamic_url host path0 request_data) as [e|path]; simpl in Hres;
    [discriminate|].
  destruct (strip_bookkeeping request_method data) as [e|data']; simpl in Hres;
    [discriminate|].
  injection Hres as <-.
  apply paginate_pages in Hin as (t & s & _ & ->). simpl.
  split; [reflexivity|]. split; [reflexivity|].
  pose proof Hc as Hc0.
  apply configured_spec in Hc as (_ & (srv & Hsrv & _) & _). simpl in Hsrv.
  exists srv. split; [exact Hsrv|].
  intros first rest Hlog.
  rewrite (process_request_configured _ _ _ _ _ _ _ _ _ _ Hres0 Hc0) in Hlog.
  cbv zeta in Hlog. cbn [log] in Hlog.
  apply paginate_first in Hlog as (-> & _). simpl. rewrite Hsrv.
  exists path. reflexivity.
Qed.


End DispatchFacts.

(** ** The background tasks *)

Section TaskFacts.

Context {R : Type}.
Variable host : Host.
Variable make_remote_call :
  EndpointsBuilder → string → pyval → R → remote_result R.

(** What [process_request] can return. *)
Lemma process_request_returns fuel request_data route_key h m doctype (w : World R) v :
  out (process_request host make_remote_call fuel request_data route_key h m doctype w)
  = Returned v →
  v = completed route_key ∨ v = missing_configuration route_key.
Proof.
  unfold process_request.
  destruct (resolve host request_data route_key m) as [e|p]; simpl; [discriminate|].
  destruct (configured p); simpl.
  - destruct (out (paginate _ _ _ _ _ _ _ _ _)); intros [= <-] || discriminate.
    left. reflexivity.
  - intros [= <-]. right. reflexivity.
Qed.

(** The messages of the tasks, in the order of the tasks. *)
Lemma collect_messages fuel keywords doctype :
  ∀ tasks request_data (w : World R) messages,
    out (collect host make_remote_call fuel keywords doctype tasks request_data w)
    = Returned messages →
    Forall2 (λ task v, v = completed task.1 ∨ v = missing_configuration task.1)
            tasks messages.
Proof.
  induction tasks as [|[route_key handler] rest IH]; intros request_data w messages;
    simpl.
  - intros [= <-]. constructor.
  - destruct (bind_arguments process_request_signature 3 keywords); simpl;
      [discriminate|].
    destruct (out (process_request host make_remote_call fuel request_data route_key
                     handler "GET" doctype w)) as [v| |] eqn:Hfirst; simpl;
      try discriminate.
    destruct (out (collect host make_remote_call fuel keywords doctype rest _ _))
      as [later| |] eqn:Hlater; simpl; try discriminate.
    intros [= <-]. constructor.
    + simpl. eapply process_request_returns. exact Hfirst.
    + eapply IH. exact Hlater.
Qed.

Lemma strings_of_messages (tasks : list (string * pyval)) (messages : list pyval) :
  Forall2 (λ task v, v = completed task.1 ∨ v = missing_configuration task.1)
          tasks messages →
  ∃ sentences,
    strings_of messages = inr sentences
    ∧ Forall2 (λ task s,
                 s = task.1 ++ " completed successfully."
                 ∨ s = "Failed to process " ++ task.1
                       ++ ". Missing required configuration.")
              tasks sentences.
Proof.
  induction 1 as [|task v tasks messages Hv _ (sentences & Hs & Hall)].
  - exists []. split; [reflexivity | constructor].
  - destruct Hv as [-> | ->]; simpl; rewrite Hs; simpl;
      eexists (_ :: sentences); (split; [reflexivity|]);
      constructor; auto.
Qed.

(** When [refresh_code_lists] or [search_organisations_request] returns, it
    returns one sentence per task, in the order of the tasks and separated by
    single spaces; each sentence names the route key of its task and tells
    either completion or missing configuration. *)
Theorem task_lists_return_a_sentence_per_task
    (fuel : nat) (request_data : pyval) (w : World R) (v : pyval) :
  let sentence_of (task : string * pyval) (s : string) :=
    s = task.1 ++ " completed successfully."
    ∨ s = "Failed to process " ++ task.1 ++ ". Missing required configuration." in
  (out (refresh_code_lists host make_remote_call fuel request_data w) = Returned v →
   ∃ sentences, v = PStr (join_strings " " sentences)
                ∧ Forall2 sentence_of code_list_tasks sentences)
  ∧ (out (search_organisations_request host make_remote_call fuel request_data w)
     = Returned v →
     ∃ sentences, v = PStr (join_strings " " sentences)
                  ∧ Forall2 sentence_of organisation_tasks sentences).
Proof.
  intros sentence_of.
  assert (∀ tasks,
            out (joined (collect host make_remote_call fuel []
                           (SETTINGS_DOCTYPE_NAME host) tasks request_data w))
            = Returned v →
            ∃ sentences, v = PStr (join_strings " " sentences)
                         ∧ Forall2 sentence_of tasks sentences) as Hgen.
  { intros tasks. unfold joined. simpl.
    destruct (out (collect _ _ _ _ _ tasks _ _)) as [messages| |] eqn:Hout;
      try discriminate.
    apply collect_messages, strings_of_messages in Hout as (sentences & Hs & Hall).
    unfold py_join. rewrite Hs. simpl. intros [= <-].
    exists sentences. split; [reflexivity | exact Hall]. }
  split; apply Hgen.
Qed.

(** *** One object, several calls *)

Lemma settled_string (s : string) : settled host (PStr s).
Proof. intros route_key. reflexivity. Qed.

Lemma pop_if_set_unset (key : string) (d : gmap string pyval) :
  (∀ v, d !! key = Some v → truthy v = false) →
  pop_if_set key (PDict d) = inr (PDict d).
Proof.
  intros Hunset. unfold pop_if_set. simpl.
  destruct (d !! key) as [v|] eqn:Hk.
  - rewrite bool_decide_eq_true_2 by eauto. simpl.
    rewrite (Hunset v eq_refl). reflexivity.
  - rewrite bool_decide_eq_false_2 by (intros [? ?]; discriminate). reflexivity.
Qed.

Lemma settled_dict (d : gmap string pyval) :
  (∀ key v, key ∈ bookkeeping → d !! key = Some v → truthy v = false) →
  settled host (PDict d).
Proof.
  intros Hunset route_key. unfold argument_after.
  destruct (resolve host (PDict d) route_key "GET") as [e|p] eqn:Hres; [reflexivity|].
  apply resolve_data in Hres as (data & [= <-] & _ & Hstrip).
  unfold strip_bookkeeping in Hstrip. simpl in Hstrip.
  rewrite pop_if_set_unset in Hstrip.
  - simpl in Hstrip. rewrite pop_if_set_unset in Hstrip; [congruence|].
    intros v. apply Hunset. apply elem_of_cons. right. apply elem_of_cons. left.
    reflexivity.
  - intros v. apply Hunset. apply elem_of_cons. left. reflexivity.
Qed.

(** Every page of the calls on a settled payload is a page of a call on that
    very payload. *)
Lemma collect_pages fuel keywords doctype :
  ∀ tasks request_data (w : World R) pg,
    settled host request_data →
    pg ∈ log (collect host make_remote_call fuel keywords doctype tasks request_data w) →
    ∃ route_key handler w',
      (route_key, handler) ∈ tasks
      ∧ pg ∈ log (process_request host make_remote_call fuel request_data route_key
                    handler "GET" doctype w').
Proof.
  induction tasks as [|[route_key handler] rest IH]; intros request_data w pg Hset;
    simpl.
  - intros []%elem_of_nil.
  - destruct (bind_arguments process_request_signature 3 keywords); simpl;
      [intros []%elem_of_nil|].
    assert (∀ (rk : string) (h : pyval), (rk, h) ∈ rest →
              (rk, h) ∈ (route_key, handler) :: rest) as Hweak.
    { intros. apply elem_of_cons. right. assumption. }
    destruct (out (process_request host make_remote_call fuel request_data route_key
                     handler "GET" doctype w)) as [v| |] eqn:Hfirst; simpl.
    + intros [Hin | Hin]%elem_of_app.
      * exists route_key, handler, w. split; [apply elem_of_cons; left; reflexivity|].
        exact Hin.
      * rewrite Hset in Hin.
        apply IH in Hin as (rk & h & w' & Htask & Hin); [|exact Hset].
        exists rk, h, w'. split; [apply Hweak; assumption | exact Hin].
    + intros Hin. exists route_key, handler, w.
      split; [apply elem_of_cons; left; reflexivity | exact Hin].
    + intros Hin. exists route_key, handler, w.
      split; [apply elem_of_cons; left; reflexivity | exact Hin].
Qed.

Lemma pop_if_set_on_dict (key : string) (d : gmap string pyval) (data : pyval) :
  pop_if_set key (PDict d) = inr data →
  data = PDict d ∨ data = PDict (delete key d).
Proof.
  unfold pop_if_set. cbv [mret exn_ret]. simpl.
  destruct (d !! key) as [v|] eqn:Hk.
  - rewrite bool_decide_eq_true_2 by eauto. simpl.
    destruct (truthy v); simpl; intros [= <-]; auto.
  - rewrite bool_decide_eq_false_2 by (intros [? ?]; discriminate).
    intros [= <-]. auto.
Qed.

(** The dict a first call leaves to the calls after it. *)
Lemma argument_after_dict (d : gmap string pyval) (route_key : string) (p : resolved) :
  resolve host (PDict d) route_key "GET" = inr p →
  ∃ d', argument_after host (PDict d) route_key "GET" = PDict d'
        ∧ (∀ key v, key ∈ bookkeeping → d' !! key = Some v → truthy v = false)
        ∧ d' !! "branch_id" = d !! "branch_id".
Proof.
  intros Hres. unfold argument_after. rewrite Hres.
  apply resolve_data in Hres as (data & [= <-] & _ & Hstrip).
  pose proof Hstrip as Hstrip0.
  unfold strip_bookkeeping in Hstrip. simpl in Hstrip.
  destruct (pop_if_set "document_name" (PDict d)) as [e|data1] eqn:H1; simpl in Hstrip;
    [discriminate|].
  assert (∃ d1, data1 = PDict d1 ∧ d1 !! "branch_id" = d !! "branch_id")
    as (d1 & -> & Hb1).
  { apply pop_if_set_on_dict in H1 as [-> | ->]; eexists; (split; [reflexivity|]);
      [reflexivity|]. apply lookup_delete_ne. discriminate. }
  assert (∃ d', r_data p = PDict d' ∧ d' !! "branch_id" = d1 !! "branch_id")
    as (d' & Hd' & Hb').
  { apply pop_if_set_on_dict in Hstrip as [-> | ->]; eexists; (split; [reflexivity|]);
      [reflexivity|]. apply lookup_delete_ne. discriminate. }
  exists d'. split; [exact Hd'|]. split.
  - intros key v Hkey Hv. rewrite Hd' in Hstrip0.
    eapply strip_bookkeeping_get; eassumption.
  - congruence.
Qed.

Lemma py_or_unset (a b : pyval) : truthy a = false → py_or a b = b.
Proof. intros Ha. unfold py_or. rewrite Ha. reflexivity. Qed.

Lemma unset_lookup (d : gmap string pyval) (key : string) :
  (∀ v, d !! key = Some v → truthy v = false) →
  truthy (default PNone (d !! key)) = false.
Proof. intros Hunset. destruct (d !! key) as [v|]; simpl; auto. Qed.

(** The calls that come after the first one on a dict, whatever they are. *)
Lemma later_calls_on_a_dict fuel keywords doctype route_key handler rest
    (d : gmap string pyval) (w : World R) :
  let first := process_request host make_remote_call fuel (PDict d) route_key handler
                 "GET" doctype w in
  let r := collect host make_remote_call fuel keywords doctype
             ((route_key, handler) :: rest) (PDict d) w in
  ∀ pg, pg ∈ drop (List.length (log first)) (log r) →
    headers (called_with pg)
    = build_headers host
        (py_or (get_user_default host "Company") (get_value host "Company"))
        (py_or (default PNone (d !! "branch_id"))
               (py_or (get_user_default host "Branch") (get_value host "Branch")))
    ∧ truthy (for_document pg) = false.
Proof.
  intros first r pg. subst r.
  change (collect host make_remote_call fuel keywords doctype
            ((route_key, handler) :: rest) (PDict d) w)
    with (match bind_arguments process_request_signature 3 keywords with
          | Some e => {| out := Raised e; log := []; world := w |}
          | None =>
              match out first with
              | Returned message =>
                  let later :=
                    collect host make_remote_call fuel keywords doctype rest
                            (argument_after host (PDict d) route_key "GET")
                            (world first) in
                  {| out := match out later with
                            | Returned messages => Returned (message :: messages)
                            | Raised e => Raised e
                            | Unfinished => Unfinished
                            end;
                     log := (log first ++ log later)%list; world := world later |}
              | Raised e => {| out := Raised e; log := log first; world := world first |}
              | Unfinished => {| out := Unfinished; log := log first; world := world first |}
              end
          end).
  destruct (bind_arguments process_request_signature 3 keywords); cbn [log].
  { rewrite drop_nil. intros []%elem_of_nil. }
  destruct (out first) as [v| |] eqn:Hfirst; cbv zeta; cbn [log];
    try (rewrite drop_all; intros []%elem_of_nil).
  rewrite drop_app_length.
  destruct (resolve host (PDict d) route_key "GET") as [e|p] eqn:Hres.
  { subst first. unfold process_request in Hfirst. rewrite Hres in Hfirst.
    discriminate. }
  destruct (argument_after_dict d route_key p Hres) as (d' & -> & Hunset & Hbranch).
  intros (rk & h & w' & _ & Hin)%collect_pages; [|apply settled_dict; exact Hunset].
  destruct (dispatch_credentials host make_remote_call fuel (PDict d') rk h "GET"
              doctype w' (PDict d') d' pg eq_refl (or_introl eq_refl) Hin)
    as (Hh & Hd & _).
  rewrite Hh, Hd, Hbranch. split.
  - rewrite py_or_unset; [reflexivity|]. apply unset_lookup. intros x.
    apply Hunset. apply elem_of_cons. right. apply elem_of_cons. left. reflexivity.
  - apply unset_lookup. intros x. apply Hunset. apply elem_of_cons. left. reflexivity.
Qed.

(** Passed a dict, [refresh_code_lists], [search_organisations_request] and
    [fetch_etims_warehouse_list] hand one and the same object to every call:
    the first call pops the company and the document it names, so every
    page fetched after the pages of the first call carries the credentials
    of the fallback company (the user's default, else the first on record)
    and no document, whatever company the dict named. *)
Theorem later_tasks_forget_the_company
    (fuel : nat) (d : gmap string pyval) (w : World R) :
  let first (doctype route_key handler : string) :=
    process_request host make_remote_call fuel (PDict d) route_key
                    (PFunc (Handler handler)) "GET" doctype w in
  let forgotten (pg : page) :=
    headers (called_with pg)
    = build_headers host
        (py_or (get_user_default host "Company") (get_value host "Company"))
        (py_or (default PNone (d !! "branch_id"))
               (py_or (get_user_default host "Branch") (get_value host "Branch")))
    ∧ truthy (for_document pg) = false in
  (∀ pg,
     pg ∈ drop (List.length (log (first (SETTINGS_DOCTYPE_NAME host)
                                    "CurrencyCountrySearchReq" "update_countries")))
               (log (refresh_code_lists host make_remote_call fuel (PDict d) w)) →
     forgotten pg)
  ∧ (∀ pg,
       pg ∈ drop (List.length (log (first (SETTINGS_DOCTYPE_NAME host)
                                      "OrgSearchReq" "update_organisations")))
                 (log (search_organisations_request host make_remote_call fuel
                         (PDict d) w)) →
       forgotten pg)
  ∧ (∀ pg,
       pg ∈ drop (List.length (log (first "Warehouse" "WarehousesSearchReq"
                                      "warehouse_search_on_success")))
                 (log (fetch_etims_warehouse_list host make_remote_call fuel
                         (PDict d) w)) →
       forgotten pg).
Proof.
  intros first forgotten. split; [|split]; intros pg Hin;
    eapply later_calls_on_a_dict; exact Hin.
Qed.

(** Passed a string, as the annotation has it, every call parses the string
    anew: all the pages of [refresh_code_lists] carry the credentials of the
    company and branch the document names. *)
Theorem refresh_code_lists_on_a_string
    (fuel : nat) (s : string) (d : gmap string pyval) (w : World R) (pg : page) :
  json_loads host s = Some (PDict d) →
  pg ∈ log (refresh_code_lists host make_remote_call fuel (PStr s) w) →
  headers (called_with pg)
  = build_headers host
      (py_or (default PNone (d !! "company_name"))
             (py_or (get_user_default host "Company") (get_value host "Company")))
      (py_or (default PNone (d !! "branch_id"))
             (py_or (get_user_default host "Branch") (get_value host "Branch")))
  ∧ for_document pg = default PNone (d !! "document_name")
  ∧ for_doctype pg = SETTINGS_DOCTYPE_NAME host
  ∧ method (called_with pg) = "GET".
Proof.
  intros Hloads Hin. unfold refresh_code_lists, joined in Hin. cbn [log] in Hin.
  apply collect_pages in Hin as (rk & h & w' & _ & Hin); [|apply settled_string].
  assert (load_data host (PStr s) = inr (PDict d)) as Hload.
  { simpl. rewrite Hloads. reflexivity. }
  destruct (dispatch_credentials host make_remote_call fuel (PStr s) rk h "GET"
              (SETTINGS_DOCTYPE_NAME host) w' (PDict d) d pg Hload
              (or_introl eq_refl) Hin) as (Hh & Hd & _).
  split; [exact Hh|]. split; [exact Hd|].
  apply process_request_pages in Hin as (p & _ & _ & Hin).
  apply paginate_pages in Hin as (t & st & _ & ->). split; reflexivity.
Qed.

End TaskFacts.

(** ** Endpoints that build their payload from a document *)

Section BuilderFacts.

Context {R : Type}.
Variable host : Host.
Variable desk : Desk.
Variable make_remote_call :
  EndpointsBuilder → string → pyval → R → remote_result R.

(** A page of a built request: what was built is what is sent. *)
Lemma dispatch_built_pages fuel (request_data : gmap string pyval) route_key
    on_success verb doctype (w : World R) pg :
  verb ≠ "GET" →
  pg ∈ log (dispatch_built host make_remote_call fuel
              (inr (request_data, route_key, on_success, verb)) doctype w) →
  payload (called_with pg) = PDict request_data
  ∧ method (called_with pg) = verb
  ∧ request_description (called_with pg) = route_key
  ∧ success_callback (called_with pg) = on_success
  ∧ for_doctype pg = doctype
  ∧ for_document pg = default PNone (request_data !! "document_name")
  ∧ headers (called_with pg)
    = build_headers host
        (py_or (default PNone (request_data !! "company_name"))
               (py_or (get_user_default host "Company") (get_value host "Company")))
        (py_or (default PNone (request_data !! "branch_id"))
               (py_or (get_user_default host "Branch") (get_value host "Branch"))).
Proof.
  intros Hm Hin. unfold dispatch_built in Hin. simpl in Hin.
  split.
  { pose proof (payload_of_a_page host make_remote_call fuel
                  (PDict request_data) route_key on_success verb doctype w
                  (PDict request_data) pg eq_refl Hin) as Hstrip.
    unfold strip_bookkeeping in Hstrip.
    apply String.eqb_neq in Hm. rewrite Hm in Hstrip.
    cbv [mret exn_ret] in Hstrip. congruence. }
  destruct (dispatch_credentials host make_remote_call fuel (PDict request_data)
              route_key on_success verb doctype w (PDict request_data) request_data
              pg eq_refl (or_introl eq_refl) Hin) as (Hh & Hd & _).
  apply process_request_pages in Hin as (p & _ & _ & Hin).
  apply paginate_pages in Hin as (t & st & _ & Hpg).
  rewrite Hpg in Hh, Hd |- *. simpl in *. repeat split; assumption.
Qed.

(** [save_warehouse_details] creates or updates, and tells a group from a
    location: every remote call it makes is a PATCH carrying the slade id
    under "id" when the warehouse has one and a POST without "id" otherwise;
    it goes to the locations route, with "branch" and "warehouse", unless
    the warehouse is a group; and it always carries the name of the
    warehouse under "document_name", which is also the document the
    handlers are told. *)
Theorem save_warehouse_details_upserts
    (fuel : nat) (name : pyval) (w : World R) (item : Document) (pg : page) :
  get_doc desk "Warehouse" name = inr item →
  pg ∈ log (save_warehouse_details host desk make_remote_call fuel name w) →
  ∃ d,
    payload (called_with pg) = PDict d
    ∧ d !! "document_name" = Some (item "name")
    ∧ for_document pg = item "name"
    ∧ for_doctype pg = "Warehouse"
    ∧ (if truthy (item "custom_slade_id")
       then method (called_with pg) = "PATCH"
            ∧ d !! "id" = Some (item "custom_slade_id")
       else method (called_with pg) = "POST" ∧ d !! "id" = None)
    ∧ (if truthy (item "is_group")
       then request_description (called_with pg) = "WarehousesSearchReq"
            ∧ d !! "branch" = None ∧ d !! "warehouse" = None
       else request_description (called_with pg) = "LocationsSearchReq"
            ∧ is_Some (d !! "branch") ∧ is_Some (d !! "warehouse")).
Proof.
  intros Hdoc Hin. unfold save_warehouse_details, warehouse_request in Hin.
  rewrite Hdoc in Hin. simpl in Hin.
  destruct (get_link_value desk "Company" "name" (item "company") "custom_slade_id")
    as [e|organisation]; simpl in Hin; [apply elem_of_nil in Hin as []|].
  destruct (truthy (item "is_group")) eqn:Hgroup; simpl in Hin.
  - destruct (truthy (item "custom_slade_id")) eqn:Hid; simpl in Hin;
      apply dispatch_built_pages in Hin
        as (Hp & Hm & Hr & _ & Hdt & Hd & _); try discriminate;
      eexists; (split; [exact Hp|]);
      rewrite Hd; simplify_map_eq; auto 10.
  - destruct (get_link_value desk "Branch" "name" (item "branch") "slade_id")
      as [e|branch]; simpl in Hin; [apply elem_of_nil in Hin as []|].
    destruct (get_link_value desk "Warehouse" "name" (item "parent_warehouse")
                "custom_slade_id")
      as [e|warehouse]; simpl in Hin; [apply elem_of_nil in Hin as []|].
    destruct (truthy (item "custom_slade_id")) eqn:Hid; simpl in Hin;
      apply dispatch_built_pages in Hin
        as (Hp & Hm & Hr & _ & Hdt & Hd & _); try discriminate;
      eexists; (split; [exact Hp|]);
      rewrite Hd; simplify_map_eq; eauto 10.
Qed.

(** [save_operation_type] creates with the handler it was given and updates
    with a handler of its own: a document with a slade id is sent by PATCH,
    with the id, to [operation_types_search_on_success], whatever
    [on_success] the caller passed; one without is sent by POST, without an
    id, to the caller's [on_success]. *)
Theorem save_operation_type_picks_the_handler
    (doctype : string) (fuel : nat) (name on_success : pyval) (w : World R)
    (item : Document) (pg : page) :
  get_doc desk doctype name = inr item →
  pg ∈ log (save_operation_type host desk make_remote_call doctype fuel name
              on_success w) →
  ∃ d,
    payload (called_with pg) = PDict d
    ∧ request_description (called_with pg) = "OperationTypesReq"
    ∧ for_document pg = item "name"
    ∧ for_doctype pg = doctype
    ∧ (if truthy (item "slade_id")
       then method (called_with pg) = "PATCH"
            ∧ d !! "id" = Some (item "slade_id")
            ∧ success_callback (called_with pg)
              = PFunc (Handler "operation_types_search_on_success")
       else method (called_with pg) = "POST"
            ∧ d !! "id" = None
            ∧ success_callback (called_with pg) = on_success).
Proof.
  intros Hdoc Hin. unfold save_operation_type, operation_type_request in Hin.
  rewrite Hdoc in Hin. simpl in Hin.
  repeat match type of Hin with
         | context [get_link_value desk ?a ?b ?c ?e] =>
             destruct (get_link_value desk a b c e) as [?|?]; simpl in Hin;
             [apply elem_of_nil in Hin as []|]
         end.
  destruct (truthy (item "slade_id")) eqn:Hid; simpl in Hin;
    apply dispatch_built_pages in Hin
      as (Hp & Hm & Hr & Hs & Hdt & Hd & _); try discriminate;
    eexists; (split; [exact Hp|]);
    rewrite Hd; simplify_map_eq; auto 10.
Qed.

End BuilderFacts.

(** ** The success handlers *)

Section HandlerFacts.

Context {S : Type}.
Variable upsert : gmap string pyval → S → option exn * S.
Variable commit : S → option exn * S.
Variable log_error : pyval → exn → S → S.

(** Quotient and remainder by twenty, for [lia]. *)
Ltac by_twenty c :=
  pose proof (Nat.div_mod_eq c 20);
  pose proof (Nat.mod_upper_bound c 20 ltac:(discriminate)).

#[local] Arguments Nat.modulo : simpl never.
#[local] Arguments Nat.div : simpl never.

Lemma pending_after_app (before : nat) (events later : list desk_event) :
  pending_after before (events ++ later)
  = pending_after (pending_after before events) later.
Proof.
  revert before. induction events as [|[| | |] events IH]; intros before; simpl; auto.
Qed.

(** The loop keeps count: [counter] grows by the items stored, a commit is
    tried each time it reaches a multiple of the batch size, and every item
    is either stored or reported. *)
Lemma sync_items_counts (items : list pyval) :
  ∀ counter s final events s',
    sync_items upsert commit log_error items counter s = (inr final, events, s') →
    final = counter + stored events
    ∧ stored events + not_stored events = List.length items
    ∧ commits events + counter / 20 = final / 20
    ∧ pending_after (counter mod 20) events = final mod 20.
Proof.
  induction items as [|item_data items IH]; intros counter s final events s'; simpl.
  - intros ?; simplify_eq. cbn. repeat split; lia.
  - destruct item_data as [| | | | |d|]; try discriminate.
    destruct (upsert d s) as [[e|] s1].
    + destruct (sync_items upsert commit log_error items counter
                  (log_error (default PNone (d !! "id")) e s1))
        as [[result events'] s3] eqn:Hrest.
      intros ?; simplify_eq.
      apply IH in Hrest as (H1 & H2 & H3 & H4).
      unfold stored, not_stored, commits in *. cbn in *. repeat split; lia.
    + unfold batch_size.
      destruct (Nat.eqb_spec (Datatypes.S counter mod 20) 0) as [Hfull | Hpart].
      * destruct (commit s1) as [[e|] s2].
        -- destruct (sync_items upsert commit log_error items (Datatypes.S counter)
                       (log_error (default PNone (d !! "id")) e s2))
             as [[result events'] s4] eqn:Hrest.
           intros ?; simplify_eq.
           apply IH in Hrest as (H1 & H2 & H3 & H4).
           unfold stored, not_stored, commits in *. cbn in *.
           rewrite Hfull in H4.
           by_twenty counter. by_twenty (Datatypes.S counter).
           repeat split; first [lia | exact H4].
        -- destruct (sync_items upsert commit log_error items (Datatypes.S counter) s2)
             as [[result events'] s3] eqn:Hrest.
           intros ?; simplify_eq.
           apply IH in Hrest as (H1 & H2 & H3 & H4).
           unfold stored, not_stored, commits in *. cbn in *.
           rewrite Hfull in H4.
           by_twenty counter. by_twenty (Datatypes.S counter).
           repeat split; first [lia | exact H4].
      * destruct (sync_items upsert commit log_error items (Datatypes.S counter) s1)
          as [[result events'] s2] eqn:Hrest.
        intros ?; simplify_eq.
        apply IH in Hrest as (H1 & H2 & H3 & H4).
        unfold stored, not_stored, commits in *. cbn in *.
        by_twenty counter. by_twenty (Datatypes.S counter).
        replace (Datatypes.S (counter mod 20)) with (Datatypes.S counter mod 20) by lia.
        repeat split; first [lia | exact H4].
Qed.

(** When [item_search_on_success] returns, every item of the response has
    been handled, stored or reported with one logged error; a commit has
    been tried after every twentieth item stored and once more for what was
    left of the last batch, so that no stored item is left without a commit
    tried after it; a response without results tries none. *)
Theorem item_search_commits_in_batches
    (response : pyval) (s s' : S) (events : list desk_event) :
  item_search_on_success upsert commit log_error response s = (inr tt, events, s') →
  commits events = (stored events + 19) / 20
  ∧ pending_after 0 events = 0
  ∧ ∀ r items, response = PDict r → r !! "results" = Some (PList items) →
      stored events + not_stored events = List.length items.
Proof.
  unfold item_search_on_success.
  destruct response as [| | | | |r|]; try discriminate.
  destruct (r !! "results") as [results|] eqn:Hresults; simpl.
  - destruct results as [| | |text|items|keys|]; try discriminate.
    + destruct (String.eqb text ""); [|discriminate].
      intros Heq. injection Heq as <- <-. cbn.
      split; [reflexivity|]. split; [reflexivity|].
      intros r0 items [= <-] Hr. congruence.
    + destruct (sync_items upsert commit log_error items 0 s)
        as [[[e|counter] events0] s1] eqn:Hloop; [discriminate|].
      apply sync_items_counts in Hloop as (H1 & H2 & H3 & H4).
      simpl in H1. subst counter.
      change (0 / 20) with 0 in H3. change (0 mod 20) with 0 in H4.
      unfold commit_rest, batch_size.
      by_twenty (stored events0). by_twenty (stored events0 + 19).
      destruct (Nat.eqb_spec (stored events0 mod 20) 0) as [Hfull | Hpart].
      * intros Heq. injection Heq as <- <-.
        split; [lia|]. split; [lia|].
        intros r0 items0 [= <-] Hr. rewrite Hresults in Hr.
        injection Hr as <-. exact H2.
      * destruct (commit s1) as [[e|] s2]; [discriminate|].
        intros Heq. injection Heq as <- <-.
        assert (stored (events0 ++ [CommitTried None]) = stored events0) as ->.
        { unfold stored. rewrite List.filter_app, List.length_app. cbn. lia. }
        assert (not_stored (events0 ++ [CommitTried None]) = not_stored events0) as ->.
        { unfold not_stored. rewrite List.filter_app, List.length_app. cbn. lia. }
        assert (commits (events0 ++ [CommitTried None])
                = Datatypes.S (commits events0)) as ->.
        { unfold commits. rewrite List.filter_app, List.length_app. cbn. lia. }
        rewrite pending_after_app.
        split; [lia|]. split; [reflexivity|].
        intros r0 items0 [= <-] Hr. rewrite Hresults in Hr.
        injection Hr as <-. exact H2.
    + destruct (bool_decide (keys = ∅)); [|discriminate].
      intros Heq. injection Heq as <- <-. cbn.
      split; [reflexivity|]. split; [reflexivity|].
      intros r0 items [= <-] Hr. congruence.
  - intros Heq. injection Heq as <- <-. cbn.
    split; [reflexivity|]. split; [reflexivity|].
    intros r0 items [= <-] Hr. congruence.
Qed.

Lemma sync_items_stops (before : list pyval) :
  ∀ (bad : pyval) (after : list pyval) counter s,
    Forall (λ item, is_dict item = true) before →
    is_dict bad = false →
    ∃ final events s',
      sync_items upsert commit log_error before counter s = (inr final, events, s')
      ∧ sync_items upsert commit log_error (before ++ bad :: after)%list counter s
        = (inl AttributeError, events, s').
Proof.
  induction before as [|item_data before IH]; intros bad after counter s Hall Hbad.
  - exists counter, [], s. split; [reflexivity|].
    simpl. destruct bad; try reflexivity. discriminate.
  - inversion Hall as [|? ? Hitem Hrest]; subst.
    destruct item_data as [| | | | |d|]; try discriminate. simpl.
    destruct (upsert d s) as [[e|] s1].
    + destruct (IH bad after counter (log_error (default PNone (d !! "id")) e s1)
                  Hrest Hbad) as (final & events & s' & -> & ->).
      eexists _, _, _. split; reflexivity.
    + destruct ((Datatypes.S counter mod batch_size =? 0)%nat).
      * destruct (commit s1) as [[e|] s2].
        -- destruct (IH bad after (Datatypes.S counter)
                        (log_error (default PNone (d !! "id")) e s2) Hrest Hbad)
             as (final & events & s' & -> & ->).
           eexists _, _, _. split; reflexivity.
        -- destruct (IH bad after (Datatypes.S counter) s2 Hrest Hbad)
             as (final & events & s' & -> & ->).
           eexists _, _, _. split; reflexivity.
      * destruct (IH bad after (Datatypes.S counter) s1 Hrest Hbad)
          as (final & events & s' & -> & ->).
        eexists _, _, _. split; reflexivity.
Qed.

(** An item that is no mapping ends the sync with [AttributeError]: the
    items after it are not looked at, and the commit of the last batch is
    not tried, so that the items stored since the last multiple of twenty
    are left without one. *)
Theorem item_search_stops_at_a_stray_item
    (r : gmap string pyval) (before : list pyval) (bad : pyval) (after : list pyval)
    (s : S) :
  r !! "results" = Some (PList (before ++ bad :: after)%list) →
  Forall (λ item, is_dict item = true) before →
  is_dict bad = false →
  ∃ events s',
    item_search_on_success upsert commit log_error (PDict r) s
    = (inl AttributeError, events, s')
    ∧ stored events + not_stored events = List.length before
    ∧ pending_after 0 events = stored events mod 20.
Proof.
  intros Hresults Hall Hbad. unfold item_search_on_success. rewrite Hresults. simpl.
  destruct (sync_items_stops before bad after 0 s Hall Hbad)
    as (final & events & s' & Hloop & ->).
  exists events, s'. split; [reflexivity|].
  apply sync_items_counts in Hloop as (H1 & H2 & _ & H4).
  simpl in *. subst final. split; [exact H2 | exact H4].
Qed.

End HandlerFacts.

(** ** Searching every branch *)

Section BranchFacts.

Context {R : Type}.
Variable host : Host.
Variable desk : Desk.
Variable make_remote_call :
  EndpointsBuilder → string → pyval → R → remote_result R.

Lemma search_each_branch_pages fuel :
  ∀ credentials (w : World R) pg,
    pg ∈ log (search_each_branch host desk make_remote_call fuel credentials w) →
    ∃ credential s w',
      credential ∈ credentials
      ∧ json_dumps desk (PDict (branch_document credential)) = inr s
      ∧ pg ∈ log (process_request host make_remote_call fuel (PStr s)
                    "ImportItemSearchReq"
                    (PFunc (Handler "imported_items_search_on_success"))
                    "GET" "Item" w').
Proof.
  induction credentials as [|credential rest IH]; intros w pg; simpl.
  - intros []%elem_of_nil.
  - destruct (json_dumps desk (PDict (branch_document credential))) as [e|s] eqn:Hs;
      simpl; [intros []%elem_of_nil|].
    assert (pg ∈ log (process_request host make_remote_call fuel (PStr s)
                        "ImportItemSearchReq"
                        (PFunc (Handler "imported_items_search_on_success"))
                        "GET" "Item" w) →
            ∃ credential0 s0 w',
              credential0 ∈ credential :: rest
              ∧ json_dumps desk (PDict (branch_document credential0)) = inr s0
              ∧ pg ∈ log (process_request host make_remote_call fuel (PStr s0)
                            "ImportItemSearchReq"
                            (PFunc (Handler "imported_items_search_on_success"))
                            "GET" "Item" w')) as Hfirst.
    { intros Hin. exists credential, s, w.
      split; [apply elem_of_cons; left; reflexivity|]. split; [exact Hs | exact Hin]. }
    destruct (out (process_request host make_remote_call fuel (PStr s)
                     "ImportItemSearchReq"
                     (PFunc (Handler "imported_items_search_on_success"))
                     "GET" "Item" w)) eqn:Hout; simpl; try exact Hfirst.
    intros [Hin | Hin]%elem_of_app; [exact (Hfirst Hin)|].
    apply IH in Hin as (c & s0 & w' & Hc & Hs0 & Hin).
    exists c, s0, w'. split; [apply elem_of_cons; right; exact Hc|].
    split; assumption.
Qed.

(** [perform_import_item_search_all_branches] writes the branch of each
    credential under "branch_code", a key [process_request] does not read:
    provided the document it writes reads back as written, every search is
    made with the credentials of the credential's company on the fallback
    branch (the user's default, else the first on record), whatever
    [bhfid] the credential has, and the branch code travels in the payload
    instead. *)
Theorem every_branch_is_searched_on_the_default_branch
    (fuel : nat) (w : World R) (pg : page) :
  (∀ credential s,
     credential ∈ all_credentials desk →
     json_dumps desk (PDict (branch_document credential)) = inr s →
     json_loads host s = Some (PDict (branch_document credential))) →
  pg ∈ log (perform_import_item_search_all_branches host desk make_remote_call fuel w) →
  ∃ credential,
    credential ∈ all_credentials desk
    ∧ headers (called_with pg)
      = build_headers host
          (py_or (credential "company")
                 (py_or (get_user_default host "Company") (get_value host "Company")))
          (py_or (get_user_default host "Branch") (get_value host "Branch"))
    ∧ ∃ d, payload (called_with pg) = PDict d
           ∧ d !! "branch_code" = Some (credential "bhfid").
Proof.
  intros Hround (credential & s & w' & Hc & Hs & Hin)%search_each_branch_pages.
  exists credential. split; [exact Hc|].
  pose proof (Hround credential s Hc Hs) as Hloads.
  assert (load_data host (PStr s) = inr (PDict (branch_document credential))) as Hload.
  { simpl. rewrite Hloads. reflexivity. }
  destruct (dispatch_credentials host make_remote_call fuel (PStr s)
              "ImportItemSearchReq"
              (PFunc (Handler "imported_items_search_on_success")) "GET" "Item" w'
              (PDict (branch_document credential)) (branch_document credential) pg
              Hload (or_introl eq_refl) Hin) as (Hh & _ & _).
  split.
  - rewrite Hh. unfold branch_document. simplify_map_eq. reflexivity.
  - apply process_request_pages in Hin as (p & Hres & _ & Hin).
    apply paginate_pages in Hin as (t & st & _ & ->). simpl.
    apply resolve_data in Hres as (data & Hload' & _ & Hstrip).
    rewrite Hload in Hload'. injection Hload' as <-.
    unfold strip_bookkeeping in Hstrip. simpl in Hstrip.
    destruct (pop_if_set "document_name" (PDict (branch_document credential)))
      as [e|data1] eqn:H1; simpl in Hstrip; [discriminate|].
    assert (∃ d1, data1 = PDict d1
                  ∧ d1 !! "branch_code" = Some (credential "bhfid"))
      as (d1 & -> & Hb1).
    { unfold pop_if_set in H1. cbv [mret exn_ret] in H1. simpl in H1.
      unfold branch_document in H1.
      rewrite bool_decide_eq_false_2 in H1
        by (simplify_map_eq; intros [? ?]; discriminate).
      injection H1 as <-. eexists. split; [reflexivity|]. simplify_map_eq.
      reflexivity. }
    unfold pop_if_set in Hstrip. cbv [mret exn_ret] in Hstrip. simpl in Hstrip.
    destruct (bool_decide (is_Some (d1 !! "company_name"))); simpl in Hstrip.
    + destruct (d1 !! "company_name") as [c|]; simpl in Hstrip; [|discriminate].
      destruct (truthy c); simpl in Hstrip; injection Hstrip as <-.
      * eexists. split; [reflexivity|].
        rewrite lookup_delete_ne by discriminate. exact Hb1.
      * eexists. split; [reflexivity | exact Hb1].
    + injection Hstrip as <-. eexists. split; [reflexivity | exact Hb1].
Qed.

End BranchFacts.

(** ** The phone number of a branch customer *)

Example phone_with_blanks : normalised_phone "0712 345 678" = Some "+254712345678".
Proof. vm_compute. reflexivity. Qed.

Example phone_with_country_code : normalised_phone " +254 712 345 678 " = Some "+254712345678".
Proof. vm_compute. reflexivity. Qed.

Example phone_too_short : normalised_phone "12345678" = None.
Proof. vm_compute. reflexivity. Qed.

Example phone_missing : normalised_phone "" = None.
Proof. vm_compute. reflexivity. Qed.

Lemma without_blanks_clean (l : list ascii) :
  Forall (λ c, is_blank c = false) (without_blanks l).
Proof.
  induction l as [|c l IH]; simpl; [constructor|].
  destruct (is_blank c) eqn:Hc; simpl; [exact IH|]. constructor; assumption.
Qed.

Lemma without_blanks_id (l : list ascii) :
  Forall (λ c, is_blank c = false) l → without_blanks l = l.
Proof.
  induction 1 as [|c l Hc _ IH]; simpl; [reflexivity|].
  rewrite Hc. simpl. f_equal. exact IH.
Qed.

Lemma lstrip_suffix (l : list ascii) : ∃ pre, l = (pre ++ lstrip l)%list.
Proof.
  induction l as [|c l [pre IH]]; simpl; [exists []; reflexivity|].
  destruct (is_space c).
  - exists (c :: pre). simpl. rewrite <- IH. reflexivity.
  - exists []. reflexivity.
Qed.

Lemma lstrip_head (l : list ascii) :
  lstrip l = [] ∨ ∃ c rest, lstrip l = c :: rest ∧ is_space c = false.
Proof.
  induction l as [|c l IH]; simpl; [left; reflexivity|].
  destruct (is_space c) eqn:Hc; [exact IH|]. right. eauto.
Qed.

Lemma lstrip_clean (l : list ascii) :
  Forall (λ c, is_blank c = false) l → Forall (λ c, is_blank c = false) (lstrip l).
Proof.
  intros Hl. destruct (lstrip_suffix l) as [pre Hpre].
  rewrite Hpre in Hl. apply Forall_app in Hl as [_ Hl]. exact Hl.
Qed.

(** What [strip] leaves: nothing, or something that ends on a character
    that is no space. *)
Lemma strip_last (l : list ascii) :
  strip l = [] ∨ ∃ init c, strip l = (init ++ [c])%list ∧ is_space c = false.
Proof.
  unfold strip. destruct (lstrip_head (reverse (lstrip l))) as [-> | (c & rest & -> & Hc)].
  - left. reflexivity.
  - right. exists (reverse rest), c. rewrite reverse_cons. split; [reflexivity | exact Hc].
Qed.

Lemma strip_clean (l : list ascii) :
  Forall (λ c, is_blank c = false) l → Forall (λ c, is_blank c = false) (strip l).
Proof.
  intros Hl. unfold strip.
  apply Forall_reverse, lstrip_clean, Forall_reverse, lstrip_clean, Hl.
Qed.

Lemma list_ascii_of_append (s t : string) :
  String.list_ascii_of_string (s ++ t)
  = (String.list_ascii_of_string s ++ String.list_ascii_of_string t)%list.
Proof. induction s as [|c s IH]; simpl; [reflexivity|]. rewrite IH. reflexivity. Qed.

Lemma length_of_list_ascii (l : list ascii) :
  String.length (String.string_of_list_ascii l) = List.length l.
Proof. induction l as [|c l IH]; simpl; [reflexivity|]. rewrite IH. reflexivity. Qed.

(** A number that is sent is "+254" and nine more characters. *)
Lemma normalised_phone_shape (number sent : string) :
  normalised_phone number = Some sent →
  ∃ nine, sent = "+254" ++ nine ∧ String.length nine = 9.
Proof.
  unfold normalised_phone.
  set (cleaned := strip (without_blanks (String.list_ascii_of_string number))).
  destruct (Nat.leb_spec 9 (List.length cleaned)) as [Hlong | Hshort]; [|discriminate].
  intros [= <-].
  exists (String.string_of_list_ascii (last_chars 9 cleaned)). split; [reflexivity|].
  rewrite length_of_list_ascii. unfold last_chars. rewrite length_drop. lia.
Qed.

(** The phone number that is sent: nothing when fewer than nine
    characters are left once the blanks are taken out and the ends are
    stripped; otherwise "+254" and the last nine of them, thirteen
    characters in all.  A number that was sent comes out of the same
    treatment unchanged. *)
Theorem normalised_phone_is_stable (number sent : string) :
  normalised_phone number = Some sent →
  (∃ nine, sent = "+254" ++ nine ∧ String.length nine = 9)
  ∧ normalised_phone sent = Some sent.
Proof.
  unfold normalised_phone.
  set (cleaned := strip (without_blanks (String.list_ascii_of_string number))).
  destruct (Nat.leb_spec 9 (List.length cleaned)) as [Hlong | Hshort]; [|discriminate].
  intros [= <-].
  set (nine := last_chars 9 cleaned).
  assert (List.length nine = 9) as Hnine.
  { unfold nine, last_chars. rewrite length_drop. lia. }
  split.
  { exists (String.string_of_list_ascii nine). split; [reflexivity|].
    rewrite length_of_list_ascii. exact Hnine. }
  assert (Forall (λ c, is_blank c = false) cleaned) as Hclean.
  { apply strip_clean, without_blanks_clean. }
  assert (Forall (λ c, is_blank c = false) nine) as Hclean9.
  { unfold nine, last_chars. apply Forall_drop. exact Hclean. }
  assert (∃ init c, nine = (init ++ [c])%list ∧ is_space c = false)
    as (init & c & Hlast & Hc).
  { destruct (strip_last (without_blanks (String.list_ascii_of_string number)))
      as [Hnil | (init & c & Hstrip & Hc)]; fold cleaned in Hnil || fold cleaned in Hstrip.
    - rewrite Hnil in Hlong. simpl in Hlong. lia.
    - exists (drop (List.length cleaned - 9) init), c. split; [|exact Hc].
      unfold nine, last_chars. rewrite Hstrip at 2.
      rewrite drop_app_le; [reflexivity|].
      rewrite Hstrip, length_app in Hlong |- *. simpl in *. lia. }
  rewrite list_ascii_of_append, String.list_ascii_of_string_of_list_ascii.
  set (plus := String.list_ascii_of_string "+254").
  assert (strip (without_blanks (plus ++ nine)) = (plus ++ nine)%list) as ->.
  { rewrite without_blanks_id
      by (apply Forall_app; split; [repeat constructor | exact Hclean9]).
    unfold strip. rewrite Hlast.
    change (lstrip (plus ++ init ++ [c])) with (plus ++ init ++ [c])%list.
    rewrite !reverse_app. simpl. rewrite Hc.
    rewrite reverse_cons, reverse_app, !reverse_involutive.
    rewrite <- app_assoc. reflexivity. }
  rewrite List.length_app, Hnine. simpl.
  unfold last_chars. simpl. rewrite Hnine. reflexivity.
Qed.

Section BranchCustomerFacts.

Variable desk : Desk.

(** Whatever [send_branch_customer_details] is given, the customer it
    writes out has no "doctype" key (the doctype of the call is the one the
    request named, or "Customer"), and its "phone_number" is either nothing
    or "+254" and nine more characters. *)
Theorem branch_customer_is_written_with_a_kenyan_number
    (data : pyval) (d : gmap string pyval) (doctype : pyval) :
  branch_customer_request desk data = inr (d, doctype) →
  d !! "doctype" = None
  ∧ (d !! "phone_number" = Some PNone
     ∨ ∃ nine, d !! "phone_number" = Some (PStr ("+254" ++ nine))
               ∧ String.length nine = 9)
  ∧ ∀ d0, data = PDict d0 → doctype = default (PStr "Customer") (d0 !! "doctype").
Proof.
  unfold branch_customer_request.
  destruct data as [| | | | |d0|]; try discriminate.
  destruct (default (PStr "") (d0 !! "phone_number")) as [| | |number| | |];
    try discriminate.
  set (phone := match normalised_phone number with
                | Some sent => PStr sent
                | None => PNone
                end).
  assert (phone = PNone
          ∨ ∃ nine, phone = PStr ("+254" ++ nine) ∧ String.length nine = 9) as Hphone.
  { unfold phone. destruct (normalised_phone number) as [sent|] eqn:Hn; [|left; reflexivity].
    right. apply normalised_phone_shape in Hn as (nine & -> & Hnine). eauto. }
  cbv zeta.
  rewrite !lookup_insert_ne by discriminate.
  destruct (d0 !! "doctype") as [named|] eqn:Hnamed;
    destruct (truthy (default PNone (d0 !! "currency")));
    intros [= <- <-]; (split; [|split]);
    try (intros ? [= <-]; rewrite Hnamed; reflexivity);
    simplify_map_eq; try reflexivity;
    destruct Hphone as [-> | (nine & -> & Hnine)]; eauto.
Qed.

End BranchCustomerFacts.

(** ** What a GET leaves in the payload *)

Section StripFacts.

Context {R : Type}.
Variable host : Host.
Variable make_remote_call :
  EndpointsBuilder → string → pyval → R → remote_result R.

(** A GET takes nothing but the two bookkeeping keys out of a mapping:
    every other key goes out with the value it came with, and a key that
    was not in the payload is not in what is sent. *)
Theorem get_keeps_the_other_keys
    (fuel : nat) (request_data : pyval) (route_key : string)
    (handler_function : pyval) (doctype : string) (w : World R)
    (d : gmap string pyval) (pg : page) :
  load_data host request_data = inr (PDict d) →
  pg ∈ log (process_request host make_remote_call fuel request_data route_key
              handler_function "GET" doctype w) →
  ∃ sent,
    payload (called_with pg) = PDict sent
    ∧ (∀ key, key ∉ bookkeeping → sent !! key = d !! key)
    ∧ (∀ key, sent !! key = None ∨ sent !! key = d !! key).
Proof.
  intros Hload (p & Hres & _ & Hin)%process_request_pages.
  apply paginate_pages in Hin as (t & st & _ & ->). simpl.
  apply resolve_data in Hres as (data & Hload' & _ & Hstrip).
  rewrite Hload in Hload'. injection Hload' as <-.
  unfold strip_bookkeeping in Hstrip. simpl in Hstrip.
  destruct (pop_if_set "document_name" (PDict d)) as [e|data1] eqn:H1; simpl in Hstrip;
    [discriminate|].
  assert (∀ (key : string) (before : gmap string pyval) (after : pyval),
            pop_if_set key (PDict before) = inr after →
            ∃ d', after = PDict d'
                  ∧ (∀ k, k ≠ key → d' !! k = before !! k)
                  ∧ (∀ k, d' !! k = None ∨ d' !! k = before !! k)) as Hpop.
  { intros key before after [-> | ->]%pop_if_set_on_dict;
      eexists; (split; [reflexivity|]); split; auto.
    - intros k Hk. apply lookup_delete_ne. congruence.
    - intros k. destruct (decide (key = k)) as [-> | Hk].
      + left. apply lookup_delete_eq.
      + right. apply lookup_delete_ne. exact Hk. }
  apply Hpop in H1 as (d1 & -> & Hsame1 & Hsub1).
  apply Hpop in Hstrip as (sent & -> & Hsame2 & Hsub2).
  exists sent. split; [reflexivity|]. split.
  - intros key Hkey. rewrite Hsame2, Hsame1; [reflexivity | |];
      intros ->; apply Hkey; unfold bookkeeping;
      repeat (apply elem_of_cons; first [left; reflexivity | right]).
  - intros key. destruct (Hsub2 key) as [-> | ->]; [left; reflexivity|]. apply Hsub1.
Qed.

End StripFacts.

(** * The extra properties on the desk of [Fixtures] *)

Module Runs.

Import Fixtures.

Lemma pages_follow_the_cursor_witness :
  ∃ resp,
    returned (Scenario.page_at 0 two_pages) = inr resp
    ∧ truthy (next_url resp) = true
    ∧ url (called_with (Scenario.page_at 1 two_pages)) = next_url resp
    ∧ headers (called_with (Scenario.page_at 1 two_pages))
      = headers (called_with (Scenario.page_at 0 two_pages))
    ∧ payload (called_with (Scenario.page_at 1 two_pages))
      = payload (called_with (Scenario.page_at 0 two_pages))
    ∧ method (called_with (Scenario.page_at 1 two_pages))
      = method (called_with (Scenario.page_at 0 two_pages))
    ∧ success_callback (called_with (Scenario.page_at 1 two_pages))
      = success_callback (called_with (Scenario.page_at 0 two_pages))
    ∧ error_callback (called_with (Scenario.page_at 1 two_pages))
      = error_callback (called_with (Scenario.page_at 0 two_pages))
    ∧ for_document (Scenario.page_at 1 two_pages)
      = for_document (Scenario.page_at 0 two_pages).
Proof.
  apply (pages_follow_the_cursor Scenario.site Scenario.remote 3 Scenario.acme_item
           "ItemSearchReq" Scenario.item_search_on_success "GET" "Item"
           (Scenario.start [Status 200 turn; Status 200 (PDict ∅)])
           [] (Scenario.page_at 0 two_pages) (Scenario.page_at 1 two_pages) []).
  vm_compute. reflexivity.
Defined.

Lemma other_methods_send_payload_whole_witness :
  payload (called_with (Scenario.page_at 0 posted)) = Scenario.acme_item.
Proof.
  apply (other_methods_send_payload_whole Scenario.site Scenario.remote 3 Scenario.acme_item
           "ItemSearchReq" Scenario.item_search_on_success "POST" "Item"
           (Scenario.start [Status 200 (PDict ∅)]) Scenario.acme_item (Scenario.page_at 0 posted)).
  - discriminate.
  - reflexivity.
  - vm_compute. constructor.
Defined.


(** The code lists and the organisations, asked for with an empty document. *)
Lemma task_lists_return_a_sentence_per_task_witness :
  ∃ sentences,
    PStr "CurrencyCountrySearchReq completed successfully. CurrencySearchReq completed successfully. PackagingUnitSearchReq completed successfully. QuantityUnitsSearchReq completed successfully. TaxSearchReq completed successfully. PaymentMtdSearchReq completed successfully."
    = PStr (join_strings " " sentences)
    ∧ Forall2 (λ (task : string * pyval) (s : string),
                 s = task.1 ++ " completed successfully."
                 ∨ s = "Failed to process " ++ task.1
                       ++ ". Missing required configuration.")
              code_list_tasks sentences.
Proof.
  apply (proj1 (task_lists_return_a_sentence_per_task open_site Fixtures.remote 2
                  (PStr "{}") (Fixtures.start two_hundreds) _)).
  vm_compute. reflexivity.
Defined.

Lemma later_tasks_forget_the_company_witness :
  headers (called_with (page_of 0 refreshed))
  = build_headers open_site (PStr "Acme") (PStr "01")
  ∧ headers (called_with (page_of 1 refreshed))
    = build_headers open_site (PStr "Idle Ltd") (PStr "01")
  ∧ truthy (for_document (page_of 1 refreshed)) = false.
Proof.
  split; [vm_compute; reflexivity|].
  apply (proj1 (later_tasks_forget_the_company open_site Fixtures.remote 2
                  acme_settings (Fixtures.start two_hundreds))
               (page_of 1 refreshed)).
  vm_compute. constructor.
Defined.

Lemma refresh_code_lists_on_a_string_witness :
  headers (called_with (page_of 5 refreshed_from_text))
  = build_headers open_site (PStr "Acme") (PStr "00")
  ∧ for_document (page_of 5 refreshed_from_text) = PNone
  ∧ for_doctype (page_of 5 refreshed_from_text) = "Navari KRA eTims Settings"
  ∧ method (called_with (page_of 5 refreshed_from_text)) = "GET".
Proof.
  apply (refresh_code_lists_on_a_string open_site Fixtures.remote 2 "acme-01"
           (branch_document acme_credential) (Fixtures.start two_hundreds)
           (page_of 5 refreshed_from_text)).
  - reflexivity.
  - vm_compute. repeat constructor.
Defined.

Lemma save_warehouse_details_upserts_witness :
  ∃ d,
    payload (called_with (page_of 0 main_store_saved)) = PDict d
    ∧ d !! "document_name" = Some (PStr "Main Store - A")
    ∧ for_document (page_of 0 main_store_saved) = PStr "Main Store - A"
    ∧ for_doctype (page_of 0 main_store_saved) = "Warehouse"
    ∧ (method (called_with (page_of 0 main_store_saved)) = "PATCH"
       ∧ d !! "id" = Some (PStr "wh-17"))
    ∧ (request_description (called_with (page_of 0 main_store_saved))
       = "LocationsSearchReq"
       ∧ is_Some (d !! "branch") ∧ is_Some (d !! "warehouse")).
Proof.
  apply (save_warehouse_details_upserts open_site desk Fixtures.remote 2
           (PStr "Main Store - A") (Fixtures.start two_hundreds) main_store
           (page_of 0 main_store_saved)).
  - reflexivity.
  - vm_compute. constructor.
Defined.

Lemma save_operation_type_picks_the_handler_witness :
  ∃ d,
    payload (called_with (page_of 0 receipts_saved)) = PDict d
    ∧ request_description (called_with (page_of 0 receipts_saved)) = "OperationTypesReq"
    ∧ for_document (page_of 0 receipts_saved) = PStr "Receipts"
    ∧ for_doctype (page_of 0 receipts_saved) = "Navari eTims Stock Operation Type"
    ∧ (method (called_with (page_of 0 receipts_saved)) = "POST"
       ∧ d !! "id" = None
       ∧ success_callback (called_with (page_of 0 receipts_saved))
         = PFunc (Handler "notify_the_caller")).
Proof.
  apply (save_operation_type_picks_the_handler open_site desk Fixtures.remote
           "Navari eTims Stock Operation Type" 2 (PStr "Receipts")
           (PFunc (Handler "notify_the_caller")) (Fixtures.start two_hundreds)
           receipts (page_of 0 receipts_saved)).
  - reflexivity.
  - vm_compute. constructor.
Defined.

Lemma every_branch_is_searched_on_the_default_branch_witness :
  ∃ credential,
    credential ∈ all_credentials desk
    ∧ headers (called_with (page_of 0 all_branches_searched))
      = build_headers open_site
          (py_or (credential "company")
                 (py_or (get_user_default open_site "Company")
                        (get_value open_site "Company")))
          (py_or (get_user_default open_site "Branch") (get_value open_site "Branch"))
    ∧ ∃ d, payload (called_with (page_of 0 all_branches_searched)) = PDict d
           ∧ d !! "branch_code" = Some (credential "bhfid").
Proof.
  apply (every_branch_is_searched_on_the_default_branch open_site desk
           Fixtures.remote 2 (Fixtures.start two_hundreds)
           (page_of 0 all_branches_searched)).
  - intros credential s Hin Hs.
    apply list_elem_of_singleton in Hin. subst credential.
    injection Hs as <-. reflexivity.
  - vm_compute. constructor.
Defined.

Lemma item_search_commits_in_batches_witness :
  commits synced.1.2 = (stored synced.1.2 + 19) / 20
  ∧ pending_after 0 synced.1.2 = 0
  ∧ ∀ r items, PDict three_items = PDict r → r !! "results" = Some (PList items) →
      stored synced.1.2 + not_stored synced.1.2 = List.length items.
Proof.
  apply (item_search_commits_in_batches store count_commit no_note
           (PDict three_items) 0 synced.2 synced.1.2).
  vm_compute. reflexivity.
Defined.

Lemma item_search_stops_at_a_stray_item_witness :
  ∃ events s',
    item_search_on_success store count_commit no_note (PDict stray_items) 0
    = (inl AttributeError, events, s')
    ∧ stored events + not_stored events = 1
    ∧ pending_after 0 events = stored events mod 20.
Proof.
  apply (item_search_stops_at_a_stray_item store count_commit no_note stray_items
           [with_id 1] (PStr "next") [with_id 3] 0).
  - reflexivity.
  - repeat constructor.
  - reflexivity.
Defined.

Lemma normalised_phone_is_stable_witness :
  (∃ nine, "+254712345678" = "+254" ++ nine ∧ String.length nine = 9)
  ∧ normalised_phone "+254712345678" = Some "+254712345678".
Proof.
  apply (normalised_phone_is_stable " 0712 345 678 " "+254712345678").
  vm_compute. reflexivity.
Defined.

Lemma branch_customer_is_written_with_a_kenyan_number_witness :
  walk_in_sent !! "doctype" = None
  ∧ (walk_in_sent !! "phone_number" = Some PNone
     ∨ ∃ nine, walk_in_sent !! "phone_number" = Some (PStr ("+254" ++ nine))
               ∧ String.length nine = 9)
  ∧ ∀ d0, PDict walk_in = PDict d0 →
      PStr "Customer Branch" = default (PStr "Customer") (d0 !! "doctype").
Proof.
  apply (branch_customer_is_written_with_a_kenyan_number desk (PDict walk_in)
           walk_in_sent (PStr "Customer Branch")).
  vm_compute. reflexivity.
Defined.

Lemma get_keeps_the_other_keys_witness :
  ∃ sent,
    payload (called_with (page_of 0 refreshed)) = PDict sent
    ∧ (∀ key, key ∉ bookkeeping → sent !! key = acme_settings !! key)
    ∧ (∀ key, sent !! key = None ∨ sent !! key = acme_settings !! key).
Proof.
  apply (get_keeps_the_other_keys open_site Fixtures.remote 2 (PDict acme_settings)
           "CurrencyCountrySearchReq" (PFunc (Handler "update_countries"))
           (SETTINGS_DOCTYPE_NAME open_site) (Fixtures.start two_hundreds)
           acme_settings (page_of 0 refreshed)).
  - reflexivity.
  - vm_compute. constructor.
Defined.

End Runs.
